(** * DeepLIO: the KITTI raw-data loader (deeplio/datasets/kitti.py)

    A shallow embedding of [KittiRawData] (one recording session) and of the
    [Kitti] dataset (the global index over the sessions), with the facts the
    specification states about them. *)

From Stdlib Require Import Ascii String.
From Stdlib Require Import ZArith List Bool Lia Sorting.Sorted.
Import ListNotations.

Open Scope Z_scope.

(** ** Python values and exceptions *)

Inductive exc :=
| IndexError
| KeyError
| NameError
| UnboundLocalError
| ValueError.

Inductive result (A : Type) :=
| Ok (a : A)
| Err (e : exc).
Arguments Ok {A} a.
Arguments Err {A} e.

Definition rbind {A B} (m : result A) (f : A -> result B) : result B :=
  match m with Ok a => f a | Err e => Err e end.

Notation "x <- m ;; k" := (rbind m (fun x => k))
  (at level 61, m at next level, right associativity).

Fixpoint rmapM {A B} (f : A -> result B) (l : list A) : result (list B) :=
  match l with
  | [] => Ok []
  | x :: r => y <- f x ;; ys <- rmapM f r ;; Ok (y :: ys)
  end.

(** Subscription [l[i]] of a Python list or a one-dimensional numpy array
    with an int: negative indices count from the end, anything else out of
    range raises [IndexError]. *)
Definition py_index {A} (l : list A) (i : Z) : result A :=
  let n := Z.of_nat (length l) in
  let j := if i <? 0 then i + n else i in
  if (0 <=? j) && (j <? n) then
    match nth_error l (Z.to_nat j) with Some x => Ok x | None => Err IndexError end
  else Err IndexError.

(** [range(a, b)] *)
Definition zrange (a b : Z) : list Z :=
  map (fun k => a + Z.of_nat k) (seq 0 (Z.to_nat (b - a))).

(** [len(l)] *)
Definition py_len {A} (l : list A) : Z := Z.of_nat (length l).

(** ** [datetime.datetime] (naive), compared as Python does: field by field *)

Record datetime := mkdt {
  year : Z; month : Z; day : Z;
  hour : Z; minute : Z; second : Z; microsecond : Z }.

Fixpoint lex_compare (a b : list Z) : comparison :=
  match a, b with
  | x :: a', y :: b' =>
      match Z.compare x y with Eq => lex_compare a' b' | c => c end
  | _, _ => Eq
  end.

Definition dt_fields (t : datetime) : list Z :=
  [year t; month t; day t; hour t; minute t; second t; microsecond t].

Definition dt_compare (a b : datetime) : comparison :=
  lex_compare (dt_fields a) (dt_fields b).

(** [a < b] and [a >= b] on datetimes *)
Definition dt_lt (a b : datetime) : bool :=
  match dt_compare a b with Lt => true | _ => false end.
Definition dt_ge (a b : datetime) : bool := negb (dt_lt a b).

(** ** Configuration (the parsed config.yaml) *)

(** [cfg['datasets']['kitti']]: the keys the loader reads. [splits] is the
    per-split mapping [ds_type -> {date: [drive, ...]}], in dict order. *)
Record ds_config := {
  root_path : string;
  cfg_image_width : Z; cfg_image_height : Z;
  cfg_fov_up : Z; cfg_fov_down : Z;
  splits : list (string * list (string * list string)) }.

Record config := {
  datasets_kitti : ds_config;
  sequence_size : Z }.

Fixpoint assoc {A} (k : string) (l : list (string * A)) : option A :=
  match l with
  | [] => None
  | (k', v) :: r => if String.eqb k k' then Some v else assoc k r
  end.

(** ** [KittiRawData]: one recording session *)

Record session := {
  drive : string;
  date : string;
  data_path : string;
  image_width : Z; image_height : Z; fov_up : Z; fov_down : Z;
  oxts_files : list string;
  velo_files : list string;
  timestamps_imu : list datetime;
  timestamps_velo : list datetime }.

(** [KittiRawData.__len__] *)
Definition session_len (s : session) : Z := py_len (velo_files s).

(** ** [Kitti]: the dataset over all sessions *)

Record kitti := {
  ds_type : string;
  seq_size : Z;
  dataset : list session;
  length_each_drive : list Z;
  bins : list (Z * Z);
  length : Z }.

(** The bin loop of [Kitti.__init__]:
    [bin_start = last_bin_end + 1; bin_end = bin_start + length - seq_size]. *)
Fixpoint bins_from (seq_size last_bin_end : Z) (ss : list session) : list (Z * Z) :=
  match ss with
  | [] => []
  | ds :: r =>
      let length := session_len ds in
      let bin_start := last_bin_end + 1 in
      let bin_end := bin_start + length - seq_size in
      (bin_start, bin_end) :: bins_from seq_size bin_end r
  end.

(** [self.bins.flatten()] of the [n x 2] array *)
Definition flatten_bins (b : list (Z * Z)) : list Z :=
  flat_map (fun '(s, e) => [s; e]) b.

(** The part of [Kitti.__init__] after the sessions are loaded (loaded in
    the loop order [for date, drives in ...: for drive in drives]);
    [self.length = self.bins.flatten()[-1] + 1] raises [IndexError] when no
    session was listed. The logger output is not modelled. *)
Definition build_kitti (ds_type : string) (seq_size : Z) (ss : list session)
  : result kitti :=
  let bins := bins_from seq_size (-1) ss in
  last <- py_index (flatten_bins bins) (-1) ;;
  Ok {| ds_type := ds_type; seq_size := seq_size; dataset := ss;
        length_each_drive := map session_len ss;
        bins := bins; length := last + 1 |}.

(** ** Timestamp files: [datetime.strptime(line[:-4], '%Y-%m-%d %H:%M:%S.%f')] *)

(** The match of the regular expression [_strptime] compiles from the
    format: a parser returns every way it can match a prefix of the line,
    in the order Python's backtracking matcher tries them (alternatives left
    to right, greedy repetitions longest first). *)
Definition parser (A : Type) := list ascii -> list (A * list ascii).

Definition pret {A} (a : A) : parser A := fun l => [(a, l)].
Definition pbind {A B} (p : parser A) (f : A -> parser B) : parser B :=
  fun l => flat_map (fun '(a, r) => f a r) (p l).
(** [p|q] *)
Definition palt {A} (p q : parser A) : parser A := fun l => p l ++ q l.
Definition pfail {A} : parser A := fun _ => [].

Notation "x <<- p ;; k" := (pbind p (fun x => k))
  (at level 61, p at next level, right associativity).

(** One character satisfying [ok]. *)
Definition pchar (ok : ascii -> bool) : parser ascii := fun l =>
  match l with
  | c :: r => if ok c then [(c, r)] else []
  | [] => []
  end.

Definition is_digit (c : ascii) : bool :=
  (48 <=? nat_of_ascii c)%nat && (nat_of_ascii c <=? 57)%nat.
Definition digit_val (c : ascii) : Z := Z.of_nat (nat_of_ascii c) - 48.

(** Python's [\s] on ASCII characters. *)
Definition is_space (c : ascii) : bool :=
  let n := nat_of_ascii c in
  ((9 <=? n) && (n <=? 13))%nat || ((28 <=? n) && (n <=? 32))%nat.

(** The character class [[lo-hi]] on digits, with the digit's value. *)
Definition pdig (lo hi : ascii) : parser Z :=
  c <<- pchar (fun c => (nat_of_ascii lo <=? nat_of_ascii c)%nat &&
                        (nat_of_ascii c <=? nat_of_ascii hi)%nat) ;;
  pret (digit_val c).

(** [\d] *)
Definition pdigit : parser Z := pdig "0" "9".

Definition plit (c : ascii) : parser unit :=
  _ <<- pchar (Ascii.eqb c) ;; pret tt.

(** [k] digits, read left to right onto [acc]. *)
Fixpoint pdigits (k : nat) (acc : Z) : parser Z :=
  match k with
  | O => pret acc
  | S k' => c <<- pdigit ;; pdigits k' (acc * 10 + c)
  end.

(** [%Y]: [\d\d\d\d] *)
Definition p_Y : parser Z := pdigits 4 0.

(** [%m]: [1[0-2]|0[1-9]|[1-9]] *)
Definition p_m : parser Z :=
  palt (_ <<- plit "1" ;; b <<- pdig "0" "2" ;; pret (10 + b))
  (palt (_ <<- plit "0" ;; pdig "1" "9")
        (pdig "1" "9")).

(** [%d]: [3[01]|[12]\d|0[1-9]|[1-9]| [1-9]] *)
Definition p_d : parser Z :=
  palt (_ <<- plit "3" ;; b <<- pdig "0" "1" ;; pret (30 + b))
  (palt (a <<- pdig "1" "2" ;; b <<- pdigit ;; pret (10 * a + b))
  (palt (_ <<- plit "0" ;; pdig "1" "9")
  (palt (pdig "1" "9")
        (_ <<- plit " " ;; pdig "1" "9")))).

(** [%H]: [2[0-3]|[0-1]\d|\d] *)
Definition p_H : parser Z :=
  palt (_ <<- plit "2" ;; b <<- pdig "0" "3" ;; pret (20 + b))
  (palt (a <<- pdig "0" "1" ;; b <<- pdigit ;; pret (10 * a + b))
        pdigit).

(** [%M]: [[0-5]\d|\d] *)
Definition p_M : parser Z :=
  palt (a <<- pdig "0" "5" ;; b <<- pdigit ;; pret (10 * a + b)) pdigit.

(** [%S]: [6[0-1]|[0-5]\d|\d] *)
Definition p_S : parser Z :=
  palt (_ <<- plit "6" ;; b <<- pdig "0" "1" ;; pret (60 + b))
  (palt (a <<- pdig "0" "5" ;; b <<- pdigit ;; pret (10 * a + b))
        pdigit).

(** [%f]: [[0-9]{1,6}], greedy; the value is the digits padded on the right
    with zeros to six places. [pfrac_from k] tries [k] digits, then fewer. *)
Fixpoint pfrac_from (k : nat) : parser Z :=
  match k with
  | O => pfail
  | S k' => palt (v <<- pdigits k 0 ;; pret (v * 10 ^ (6 - Z.of_nat k))) (pfrac_from k')
  end.

Definition pfrac : parser Z := pfrac_from 6.

(** The suffixes left after one or more blanks, most blanks first. *)
Fixpoint space_suffixes (l : list ascii) : list (list ascii) :=
  match l with
  | c :: r => if is_space c then space_suffixes r ++ [r] else []
  | [] => []
  end.

(** A blank of the format is compiled to [\s+]. *)
Definition pspaces1 : parser unit := fun l =>
  map (fun r => (tt, r)) (space_suffixes l).

(** The pattern of [%Y-%m-%d %H:%M:%S.%f] ([.] is escaped). *)
Definition kitti_format : parser datetime :=
  y <<- p_Y ;; _ <<- plit "-"%char ;; mo <<- p_m ;; _ <<- plit "-"%char ;;
  d <<- p_d ;; _ <<- pspaces1 ;;
  h <<- p_H ;; _ <<- plit ":"%char ;; mi <<- p_M ;; _ <<- plit ":"%char ;;
  s <<- p_S ;; _ <<- plit "."%char ;; f <<- pfrac ;;
  pret (mkdt y mo d h mi s f).

Definition is_leap (y : Z) : bool :=
  (y mod 4 =? 0) && (negb (y mod 100 =? 0) || (y mod 400 =? 0)).

Definition days_in_month (y m : Z) : Z :=
  if m =? 2 then (if is_leap y then 29 else 28)
  else if (m =? 4) || (m =? 6) || (m =? 9) || (m =? 11) then 30
  else 31.

(** The checks of the [datetime] constructor (second 60 and 61, which the
    [%S] pattern admits, are refused there). *)
Definition valid_datetime (t : datetime) : bool :=
  (1 <=? year t) && (year t <=? 9999) &&
  (1 <=? month t) && (month t <=? 12) &&
  (1 <=? day t) && (day t <=? days_in_month (year t) (month t)) &&
  (hour t <=? 23) && (minute t <=? 59) && (second t <=? 59).

(** [datetime.strptime]: the first match of the pattern ([re.match]);
    data left after it is refused ("unconverted data remains"), then the
    fields go through the checks of the [datetime] constructor. *)
Definition strptime_kitti (s : list ascii) : result datetime :=
  match kitti_format s with
  | (t, []) :: _ => if valid_datetime t then Ok t else Err ValueError
  | _ => Err ValueError
  end.

(** Python's slice [line[:-4]]. *)
Definition drop_last4 (line : list ascii) : list ascii :=
  firstn (List.length line - 4) line.

(** The loop of [_load_timestamps] over the lines of one timestamp file. *)
Definition parse_timestamp_lines (lines : list (list ascii)) : result (list datetime) :=
  rmapM (fun line => strptime_kitti (drop_last4 line)) lines.

(** *** The lines of a KITTI timestamp file *)

Definition digit_char (v : Z) : ascii := ascii_of_nat (48 + Z.to_nat v).

(** [k]-digit zero-padded decimal of [n] (for [0 <= n < 10^k]). *)
Fixpoint fmt (k : nat) (n : Z) : list ascii :=
  match k with
  | O => []
  | S k' => digit_char ((n / 10 ^ Z.of_nat k') mod 10) :: fmt k' n
  end.

(** [YYYY-MM-DD HH:MM:SS.nnnnnnnnn\n]: nine sub-second digits. *)
Definition kitti_line (y mo d h mi s ns : Z) : list ascii :=
  fmt 4 y ++ ["-"%char] ++ fmt 2 mo ++ ["-"%char] ++ fmt 2 d ++ [" "%char] ++
  fmt 2 h ++ [":"%char] ++ fmt 2 mi ++ [":"%char] ++ fmt 2 s ++ ["."%char] ++
  fmt 9 ns ++ ["010"%char].

(** The fields a timestamp line denotes, down to the nanosecond. *)
Record kitti_stamp := {
  st_year : Z; st_month : Z; st_day : Z;
  st_hour : Z; st_minute : Z; st_second : Z; st_nanos : Z }.

Definition stamp_line (st : kitti_stamp) : list ascii :=
  kitti_line (st_year st) (st_month st) (st_day st)
             (st_hour st) (st_minute st) (st_second st) (st_nanos st).

(** The stamp's time, truncated to the microsecond. *)
Definition stamp_truncated (st : kitti_stamp) : datetime :=
  mkdt (st_year st) (st_month st) (st_day st)
       (st_hour st) (st_minute st) (st_second st) (st_nanos st / 1000).

(** A real calendar time, with nine sub-second digits. *)
Definition stamp_ok (st : kitti_stamp) : Prop :=
  1 <= st_year st <= 9999 /\ 1 <= st_month st <= 12 /\
  1 <= st_day st <= days_in_month (st_year st) (st_month st) /\
  0 <= st_hour st <= 23 /\ 0 <= st_minute st <= 59 /\ 0 <= st_second st <= 59 /\
  0 <= st_nanos st < 10 ^ 9.


(** A line whose fields all fit their digit widths ([%Y] four digits, the
    others two, nine sub-second digits), whether or not it is a real time. *)
Definition stamp_digits_ok (st : kitti_stamp) : Prop :=
  0 <= st_year st < 10000 /\ 0 <= st_month st < 100 /\ 0 <= st_day st < 100 /\
  0 <= st_hour st < 100 /\ 0 <= st_minute st < 100 /\ 0 <= st_second st < 100 /\
  0 <= st_nanos st < 1000000000.

(** The same line as the last line of a file that does not end in a
    newline: [readlines] returns it without its ['\n']. *)
Definition stamp_last_line (st : kitti_stamp) : list ascii :=
  removelast (stamp_line st).

(** ** External collaborators *)

(** The storage the loader reads: [sorted(glob.glob(pattern))] and
    [open(path).readlines()] (each line keeps its ['\n']). *)
Class FileSystem := {
  glob_sorted : string -> list string;
  read_lines : string -> result (list (list ascii)) }.

(** The decoders of [deeplio.common]: [LaserScan] with [open_scan],
    [do_range_projection] and the [np.dstack] of its projections
    ([range_image H W fov_up fov_down file]), [utils.load_velo_scan] and
    [utils.load_oxts_packets_and_poses], with the fields of an OXTS record. *)
Class Sensors := {
  image : Type;
  scan_points : Type;
  oxt : Type;
  pyfloat : Type;
  range_image : Z -> Z -> Z -> Z -> string -> result image;
  load_velo_scan : string -> result scan_points;
  load_oxts_packets_and_poses : list string -> result (list oxt);
  packet_ax : oxt -> pyfloat; packet_ay : oxt -> pyfloat; packet_az : oxt -> pyfloat;
  packet_wx : oxt -> pyfloat; packet_wy : oxt -> pyfloat; packet_wz : oxt -> pyfloat;
  T_w_imu_flatten : oxt -> list pyfloat;
  float_zero : pyfloat (* 0. *) }.

(** [print] output of the loader. *)
Inductive message :=
| WarnNoImu (start_index : Z) (velo_start_ts velo_stop_ts : datetime)
    (* "Warning: No imu data found for index ..." *)
| ErrNoBins (* "Error: No bins and no drive number found!" *)
| DeltaTime (* "Delta-Time: ..." *).

(** Computations that print and may raise: the printed lines, then the
    outcome. *)
Definition M (A : Type) := (list message * result A)%type.

Definition mret {A} (a : A) : M A := ([], Ok a).
Definition mraise {A} (e : exc) : M A := ([], Err e).
Definition mprint (m : message) : M unit := ([m], Ok tt).
Definition mlift {A} (r : result A) : M A := ([], r).
Definition mbind {A B} (m : M A) (f : A -> M B) : M B :=
  match m with
  | (out, Ok a) => let (out', r) := f a in (out ++ out', r)
  | (out, Err e) => (out, Err e)
  end.

Notation "x <: m ;; k" := (mbind m (fun x => k))
  (at level 61, m at next level, right associativity).

Definition path_join (a b : string) : string := (a ++ "/" ++ b)%string.

Section Loader.
Context `{FS : FileSystem} `{SN : Sensors}.

(** [_load_timestamps], for one file. *)
Definition load_timestamp_file (path : string) : result (list datetime) :=
  lines <- read_lines path ;;
  parse_timestamp_lines lines.

(** [KittiRawData.__init__] with [frames = None] ([_get_file_lists], then
    [_load_timestamps]). *)
Definition kitti_raw_data (base_path date drive : string) (cfg : ds_config)
  : result session :=
  let data_path := path_join (path_join base_path date) drive in
  let oxts := glob_sorted (path_join data_path "oxts/data/*.txt") in
  let velo := glob_sorted (path_join data_path "velodyne_points/data/*.txt") in
  ts_imu <- load_timestamp_file (path_join data_path "oxts/timestamps.txt") ;;
  ts_velo <- load_timestamp_file (path_join data_path "velodyne_points/timestamps.txt") ;;
  Ok {| drive := drive; date := date; data_path := data_path;
        image_width := cfg_image_width cfg; image_height := cfg_image_height cfg;
        fov_up := cfg_fov_up cfg; fov_down := cfg_fov_down cfg;
        oxts_files := oxts; velo_files := velo;
        timestamps_imu := ts_imu; timestamps_velo := ts_velo |}.

(** The sessions of one split, in the order of the two nested loops. *)
Definition load_sessions (root : string) (dsc : ds_config)
  (split : list (string * list string)) : result (list session) :=
  sss <- rmapM (fun '(date, drives) =>
                  rmapM (fun drive => kitti_raw_data root date drive dsc) drives) split ;;
  Ok (concat sss).

(** [Kitti.__init__(self, config, ds_type, transform)]. The body reads the
    name [cfg], which is not a parameter nor a local: Python resolves it in
    the module's globals ([globals]) and raises [NameError] when it is not
    bound there. *)
Definition kitti_init (globals : list (string * config)) (config : config)
  (ds_type : string) : result kitti :=
  match assoc "cfg" globals with
  | None => Err NameError
  | Some cfg =>
      let dsc := datasets_kitti cfg in
      let root := root_path dsc in
      let seq := sequence_size cfg in
      match assoc ds_type (splits dsc) with
      | None => Err KeyError
      | Some split =>
          ss <- load_sessions root dsc split ;;
          build_kitti ds_type seq ss
      end
  end.

(** [KittiRawData.get_velo] *)
Definition get_velo (s : session) (idx : Z) : result scan_points :=
  f <- py_index (velo_files s) idx ;;
  load_velo_scan f.

(** [KittiRawData.get_velo_image] *)
Definition get_velo_image (s : session) (idx : Z) : result image :=
  f <- py_index (velo_files s) idx ;;
  range_image (image_height s) (image_width s) (fov_up s) (fov_down s) f.

(** [KittiRawData._load_oxt_lazy] *)
Definition load_oxt_lazy (s : session) (index : Z) : result (list oxt) :=
  f <- py_index (oxts_files s) index ;;
  load_oxts_packets_and_poses [f].

End Loader.

(** [np.argwhere(mask).flatten()] on a one-dimensional mask: the positions
    holding [True], in increasing order, numbered from [k]. *)
Fixpoint argwhere_from (k : nat) (mask : list bool) : list nat :=
  match mask with
  | [] => []
  | b :: m => if b then k :: argwhere_from (S k) m else argwhere_from (S k) m
  end.

(** [(self.timestamps_imu >= velo_start_ts) & (self.timestamps_imu < velo_stop_ts)] *)
Definition imu_mask (ts : list datetime) (t0 t1 : datetime) : list bool :=
  map (fun t => dt_ge t t0 && dt_lt t t1) ts.

(** The inertial indices [get_data] selects for the interval [[t0, t1)]. *)
Definition imu_select (ts : list datetime) (t0 t1 : datetime) : list nat :=
  argwhere_from 0 (imu_mask ts t0 t1).

(** The interval [get_data] computes from the scan timestamps. *)
Definition window_interval (s : session) (start_index length : Z)
  : result (datetime * datetime) :=
  velo_start_ts <- py_index (timestamps_velo s) start_index ;;
  velo_stop_ts <- py_index (timestamps_velo s) (start_index + length - 1) ;;
  Ok (velo_start_ts, velo_stop_ts).

(** [(idx, num_drive)] after the loop of [Kitti.__getitem__]: the first bin
    [[bin_start, bin_end]] holding [index]; [(-1, -1)] when none does. *)
Fixpoint scan_bins (bs : list (Z * Z)) (index i : Z) : Z * Z :=
  match bs with
  | [] => (-1, -1)
  | (bin_start, bin_end) :: r =>
      if (bin_start <=? index) && (index <=? bin_end) then (index - bin_start, i)
      else scan_bins r index (i + 1)
  end.

Section Window.
Context `{FS : FileSystem} `{SN : Sensors}.

(** The value of [data['imu']]: a list of six-component rows, or the flat
    list [[0.] * 6] of the no-data branch. *)
Inductive imu_values :=
| ImuRows (rows : list (list pyfloat))
| ImuFlat (vals : list pyfloat).

Definition imu_len (v : imu_values) : nat :=
  match v with ImuRows l => List.length l | ImuFlat l => List.length l end.

(** The dict [{'images': ..., 'imu': ..., 'ground-truth': ...}]. *)
Record seq_data := {
  images : list image;
  imu : imu_values;
  ground_truth : list (list pyfloat) }.

Definition imu_row (o : oxt) : list pyfloat :=
  [packet_ax o; packet_ay o; packet_az o; packet_wx o; packet_wy o; packet_wz o].

(** [KittiRawData.get_data(start_index, length)]. The local [gt] is assigned
    only in the [else] branch: it is [None] (unbound) after the [if] branch,
    and reading it to build the dict raises [UnboundLocalError]. *)
Definition get_data (s : session) (start_index length : Z) : M seq_data :=
  interval <: mlift (window_interval s start_index length) ;;
  let '(velo_start_ts, velo_stop_ts) := interval in
  images <: mlift (rmapM (get_velo_image s) (zrange start_index (start_index + length))) ;;
  let indices := imu_select (timestamps_imu s) velo_start_ts velo_stop_ts in
  (* [len(imu_ts) == 0] with [imu_ts = self.timestamps_imu[indices]] *)
  branch <: (if (List.length indices =? 0)%nat then
               _ <: mprint (WarnNoImu start_index velo_start_ts velo_stop_ts) ;;
               mret (ImuFlat (repeat float_zero 6), None)
             else
               otxs <: mlift (rmapM (load_oxt_lazy s) (map Z.of_nat indices)) ;;
               firsts <: mlift (rmapM (fun otx => py_index otx 0) otxs) ;;
               mret (ImuRows (map imu_row firsts), Some (map T_w_imu_flatten firsts))) ;;
  match branch with
  | (_, None) => mraise UnboundLocalError
  | (imu_values, Some gt) =>
      mret {| images := images; imu := imu_values; ground_truth := gt |}
  end.

(** [Kitti.__getitem__] for an int [index]. The module never imports [time]
    at its top: only the [__main__] block does ([import time], line 237),
    which binds the name as a module global when the file runs as a script.
    [time_bound] says whether that happened; when the module is imported,
    [start = time.time()] raises [NameError]. The timing itself only
    prints. *)
Definition getitem (time_bound : bool) (ds : kitti) (index : Z) : M (option seq_data) :=
  let '(idx, num_drive) := scan_bins (bins ds) index 0 in
  if (idx <? 0) || (num_drive <? 0) then
    _ <: mprint ErrNoBins ;; mret None
  else
    _ <: (if time_bound then mret tt else mraise NameError) ;;
    s <: mlift (py_index (dataset ds) num_drive) ;;
    data <: get_data s idx (seq_size ds) ;;
    _ <: mprint DeltaTime ;;
    mret (Some data).

End Window.

(** ** Concrete collaborators, for evaluating the loader on small inputs *)

(** A scan or IMU timestamp at microsecond [n] of 2011-09-26 13:00:00. *)
Definition us (n : Z) : datetime := mkdt 2011 9 26 13 0 0 n.

Definition toy_session (nscans : nat) (tv ti : list datetime) : session :=
  {| drive := "0001"; date := "2011_09_26"; data_path := "kitti/2011_09_26/0001";
     image_width := 2048; image_height := 64; fov_up := 3; fov_down := -25;
     oxts_files := repeat "oxts.txt"%string (List.length ti);
     velo_files := repeat "scan.txt"%string nscans;
     timestamps_imu := ti; timestamps_velo := tv |}.

(** Images and scans are their file names, an OXTS record is a number. *)
#[export] Instance toy_sensors : Sensors := {|
  image := string; scan_points := string; oxt := Z; pyfloat := Z;
  range_image := fun _ _ _ _ f => Ok f;
  load_velo_scan := fun f => Ok f;
  load_oxts_packets_and_poses := fun fs => Ok (map (fun _ => 1) fs);
  packet_ax := fun o => o; packet_ay := fun o => o; packet_az := fun o => o;
  packet_wx := fun o => o; packet_wy := fun o => o; packet_wz := fun o => o;
  T_w_imu_flatten := fun o => [o];
  float_zero := 0 |}.

(** Drive 0001 has five scans, drive 0002 two; every timestamp file holds
    one line. *)
#[export] Instance toy_fs : FileSystem := {|
  glob_sorted := fun p =>
    if String.eqb p "kitti/2011_09_26/0001/velodyne_points/data/*.txt"
    then repeat "scan.txt"%string 5
    else if String.eqb p "kitti/2011_09_26/0002/velodyne_points/data/*.txt"
    then repeat "scan.txt"%string 2
    else [];
  read_lines := fun _ => Ok [kitti_line 2011 9 26 13 2 25 964389445] |}.

Definition toy_cfg : config :=
  {| datasets_kitti :=
       {| root_path := "kitti"; cfg_image_width := 2048; cfg_image_height := 64;
          cfg_fov_up := 3; cfg_fov_down := -25;
          splits := [("train", [("2011_09_26", ["0001"; "0002"])])]%string |};
     sequence_size := 3 |}.

(** Scans at 0, 10, 20 and 30 us; IMU samples at 1, 5, 9 and 15 us. *)
Definition toy_window_session : session :=
  toy_session 4 [us 0; us 10; us 20; us 30] [us 1; us 5; us 9; us 15].

(** The same scans, with the only IMU sample at 15 us. *)
Definition toy_gap_session : session :=
  toy_session 4 [us 0; us 10; us 20; us 30] [us 15].

(** The line [2011-09-26 13:02:25.964389445]. *)
Definition toy_stamp : kitti_stamp :=
  {| st_year := 2011; st_month := 9; st_day := 26; st_hour := 13;
     st_minute := 2; st_second := 25; st_nanos := 964389445 |}.

(** The sessions of the [train] split of [toy_cfg], as [toy_fs] yields them. *)
Definition toy_train_sessions : list session :=
  match load_sessions "kitti" (datasets_kitti toy_cfg)
          [("2011_09_26"%string, ["0001"%string; "0002"%string])] with
  | Ok ss => ss
  | Err _ => []
  end.

(** Every timestamp file holds the one line [2011-02-30 13:02:25.964389445]
    (February 30th); no data files. *)
Definition toy_fs_bad : FileSystem := {|
  glob_sorted := fun _ => [];
  read_lines := fun _ => Ok [kitti_line 2011 2 30 13 2 25 964389445] |}.

(** The line of [toy_fs_bad]. *)
Definition toy_bad_stamp : kitti_stamp :=
  {| st_year := 2011; st_month := 2; st_day := 30; st_hour := 13;
     st_minute := 2; st_second := 25; st_nanos := 964389445 |}.

(** A configuration whose [test] split lists a date without drives. *)
Definition toy_empty_cfg : config :=
  {| datasets_kitti :=
       {| root_path := "kitti"; cfg_image_width := 2048; cfg_image_height := 64;
          cfg_fov_up := 3; cfg_fov_down := -25;
          splits := [("test", [("2011_09_26", [])])]%string |};
     sequence_size := 3 |}.

(** The scans and IMU samples of [toy_window_session], with one OXTS file
    for the four IMU timestamps. *)
Definition toy_short_oxts_session : session :=
  {| drive := "0001"; date := "2011_09_26"; data_path := "kitti/2011_09_26/0001";
     image_width := 2048; image_height := 64; fov_up := 3; fov_down := -25;
     oxts_files := ["oxts.txt"%string];
     velo_files := repeat "scan.txt"%string 4;
     timestamps_imu := [us 1; us 5; us 9; us 15];
     timestamps_velo := [us 0; us 10; us 20; us 30] |}.

(** ** Quantities the statements use *)

(** The [last_bin_end] after the bin loop of [Kitti.__init__]. *)
Fixpoint final_end (seq le : Z) (ss : list session) : Z :=
  match ss with
  | [] => le
  | d :: r => final_end seq (le + 1 + session_len d - seq) r
  end.

(** [sum(len(ds) - seq_size + 1 for ds in sessions)] *)
Definition windows_total (seq : Z) (ss : list session) : Z :=
  fold_right (fun d acc => session_len d - seq + 1 + acc) 0 ss.

(** A session holding at least one window of [seq] scans. *)
Definition long_enough (seq : Z) (d : session) : Prop := seq <= session_len d.

(** * Proofs *)

(** ** General facts about the Python primitives *)

Lemma py_index_nat {A} (l : list A) (k : nat) (x : A) :
  nth_error l k = Some x -> py_index l (Z.of_nat k) = Ok x.
Proof.
  intros H. unfold py_index.
  assert (Hk : (k < List.length l)%nat) by (apply nth_error_Some; congruence).
  replace (Z.of_nat k <? 0) with false by (symmetry; apply Z.ltb_ge; lia).
  replace ((0 <=? Z.of_nat k) && (Z.of_nat k <? Z.of_nat (List.length l))) with true
    by (symmetry; apply andb_true_iff; split; [apply Z.leb_le | apply Z.ltb_lt]; lia).
  rewrite Nat2Z.id, H. reflexivity.
Qed.

Lemma py_index_last {A} (l : list A) (d : A) :
  l <> [] -> py_index l (-1) = Ok (last l d).
Proof.
  intros Hne. unfold py_index.
  pose proof (@app_removelast_last A l d Hne) as E.
  assert (Hlen : List.length l = S (List.length (removelast l)))
    by (rewrite E at 1; rewrite length_app; simpl; lia).
  replace (-1 <? 0) with true by reflexivity.
  replace ((0 <=? -1 + Z.of_nat (List.length l)) && (-1 + Z.of_nat (List.length l) <? Z.of_nat (List.length l)))
    with true by (symmetry; apply andb_true_iff; split; [apply Z.leb_le | apply Z.ltb_lt]; lia).
  replace (Z.to_nat (-1 + Z.of_nat (List.length l))) with (List.length (removelast l)) by lia.
  rewrite E at 1. rewrite nth_error_app2 by lia. rewrite Nat.sub_diag. reflexivity.
Qed.

Lemma snd_mbind {A B} (m : M A) (f : A -> M B) :
  snd (mbind m f) = match snd m with Ok a => snd (f a) | Err e => Err e end.
Proof.
  destruct m as [out [a|e]]; simpl; [destruct (f a); reflexivity | reflexivity].
Qed.

(** ** The bin table *)

Section Bins.
Variable seq : Z.

Lemma final_end_sum le ss : final_end seq le ss = le + windows_total seq ss.
Proof.
  revert le; induction ss as [|d r IH]; intros le; simpl; [lia|].
  rewrite IH. lia.
Qed.

Lemma flatten_bins_last le ss d0 :
  ss <> [] -> last (flatten_bins (bins_from seq le ss)) d0 = final_end seq le ss.
Proof.
  revert le; induction ss as [|d r IH]; intros le Hne; [congruence|].
  destruct r as [|d' r'].
  - reflexivity.
  - change (final_end seq le (d :: d' :: r'))
      with (final_end seq (le + 1 + session_len d - seq) (d' :: r')).
    rewrite <- (IH (le + 1 + session_len d - seq)) by congruence.
    reflexivity.
Qed.

Lemma bins_from_nth le ss k s e :
  nth_error (bins_from seq le ss) k = Some (s, e) ->
  exists d, nth_error ss k = Some d /\ e = s + session_len d - seq.
Proof.
  revert le k; induction ss as [|d r IH]; intros le k H; [destruct k; discriminate|].
  destruct k as [|k]; simpl in H.
  - inversion H; subst. exists d. split; [reflexivity | lia].
  - apply IH in H. exact H.
Qed.

Lemma bins_from_first le d r :
  exists e, nth_error (bins_from seq le (d :: r)) 0 = Some (le + 1, e).
Proof. eexists. reflexivity. Qed.

Lemma bins_from_contiguous le ss k s e s' e' :
  nth_error (bins_from seq le ss) k = Some (s, e) ->
  nth_error (bins_from seq le ss) (S k) = Some (s', e') -> e + 1 = s'.
Proof.
  revert le k; induction ss as [|d r IH]; intros le k H H'; [destruct k; discriminate|].
  destruct k as [|k]; simpl in H, H'.
  - inversion H; subst. destruct r as [|d' r']; [discriminate|].
    simpl in H'. inversion H'. lia.
  - exact (IH _ _ H H').
Qed.

(** Every index between the start of the first bin and the end of the last
    is held by a bin, and the loop of [__getitem__] stops at one of them. *)
Lemma scan_bins_cover le ss i x :
  le + 1 <= x <= final_end seq le ss ->
  exists k s e,
    nth_error (bins_from seq le ss) k = Some (s, e) /\ s <= x <= e /\
    scan_bins (bins_from seq le ss) x i = (x - s, i + Z.of_nat k).
Proof.
  revert le i; induction ss as [|d r IH]; intros le i Hx; simpl in Hx; [lia|].
  simpl.
  destruct ((le + 1 <=? x) && (x <=? le + 1 + session_len d - seq)) eqn:Hin.
  - apply andb_true_iff in Hin as [H1 H2]. apply Z.leb_le in H1, H2.
    exists 0%nat, (le + 1), (le + 1 + session_len d - seq).
    repeat split; try lia. f_equal. lia.
  - assert (Hgt : le + 1 + session_len d - seq < x).
    { destruct (Z.le_gt_cases x (le + 1 + session_len d - seq)); [|lia].
      exfalso. assert (Ht : (le + 1 <=? x) && (x <=? le + 1 + session_len d - seq) = true)
        by (apply andb_true_iff; split; apply Z.leb_le; lia). congruence. }
    destruct (IH (le + 1 + session_len d - seq) (i + 1)) as (k & s & e & Hk & Hse & Hsc);
      [lia|].
    exists (S k), s, e. repeat split; try assumption; try lia.
    rewrite Hsc. f_equal. lia.
Qed.

Lemma bins_from_start_ge le ss k s e :
  Forall (long_enough seq) ss ->
  nth_error (bins_from seq le ss) k = Some (s, e) -> le + 1 <= s.
Proof.
  revert le k; induction ss as [|d r IH]; intros le k Hl H; [destruct k; discriminate|].
  inversion Hl as [|? ? Hd Hr]; subst. unfold long_enough in Hd.
  destruct k as [|k]; simpl in H.
  - inversion H; lia.
  - apply IH in H; [lia | exact Hr].
Qed.

Lemma bins_from_end_le le ss k s e :
  Forall (long_enough seq) ss ->
  nth_error (bins_from seq le ss) k = Some (s, e) -> e <= final_end seq le ss.
Proof.
  revert le k; induction ss as [|d r IH]; intros le k Hl H; [destruct k; discriminate|].
  inversion Hl as [|? ? Hd Hr]; subst. unfold long_enough in Hd.
  destruct k as [|k]; simpl in H |- *.
  - inversion H; subst. rewrite final_end_sum.
    assert (0 <= windows_total seq r).
    { clear -Hr. induction r as [|d' r' IHr]; simpl; [lia|].
      inversion Hr as [|? ? Hd' Hr']; subst. unfold long_enough in Hd'.
      specialize (IHr Hr'). lia. }
    lia.
  - exact (IH _ _ Hr H).
Qed.

(** With sessions at least [seq] scans long, later bins lie strictly after
    earlier ones. *)
Lemma bins_from_ordered le ss k j s e s' e' :
  Forall (long_enough seq) ss -> (k < j)%nat ->
  nth_error (bins_from seq le ss) k = Some (s, e) ->
  nth_error (bins_from seq le ss) j = Some (s', e') -> e < s'.
Proof.
  revert le k j; induction ss as [|d r IH]; intros le k j Hl Hkj H H';
    [destruct k; discriminate|].
  inversion Hl as [|? ? Hd Hr]; subst.
  destruct j as [|j]; [lia|]. simpl in H'.
  destruct k as [|k]; simpl in H.
  - inversion H; subst. apply bins_from_start_ge in H'; [lia | exact Hr].
  - exact (IH _ k j Hr ltac:(lia) H H').
Qed.

Lemma scan_bins_none bs x i :
  (forall s e, In (s, e) bs -> ~ (s <= x <= e)) -> scan_bins bs x i = (-1, -1).
Proof.
  revert i; induction bs as [|[s e] r IH]; intros i H; simpl; [reflexivity|].
  destruct ((s <=? x) && (x <=? e)) eqn:Hin.
  - apply andb_true_iff in Hin as [H1 H2]. apply Z.leb_le in H1, H2.
    exfalso. apply (H s e); [left; reflexivity | lia].
  - apply IH. intros s' e' Hi. apply H. right. exact Hi.
Qed.

End Bins.

Lemma build_kitti_ok ty seq ss ds :
  build_kitti ty seq ss = Ok ds ->
  ss <> [] /\ dataset ds = ss /\ seq_size ds = seq /\
  bins ds = bins_from seq (-1) ss /\ length ds = final_end seq (-1) ss + 1.
Proof.
  unfold build_kitti. intros H.
  destruct ss as [|d r].
  - discriminate H.
  - rewrite (py_index_last _ 0) in H.
    + rewrite flatten_bins_last in H by congruence.
      cbn [rbind] in H. inversion H; subst. cbn.
      repeat split; congruence.
    + simpl. congruence.
Qed.

Lemma build_kitti_nonempty ty seq ss :
  ss <> [] -> exists ds, build_kitti ty seq ss = Ok ds.
Proof.
  intros Hne. unfold build_kitti.
  rewrite (py_index_last _ 0).
  - eexists. reflexivity.
  - destruct ss; [congruence|]. simpl. congruence.
Qed.

(** ** Claims on the global index *)

(** C3: after construction, the first bin starts at 0, bin [k] ends at its
    start plus the length of session [k] minus the window length, each bin
    starts right after the previous one ends, and [len(dataset)] is the sum
    over the sessions of [length - window_length + 1]. (This holds for any
    session lengths, not only those at least [window_length] long.) *)
Theorem kitti_bin_table ty seq ss ds :
  build_kitti ty seq ss = Ok ds ->
  (exists e0, nth_error (bins ds) 0 = Some (0, e0)) /\
  (forall k s e, nth_error (bins ds) k = Some (s, e) ->
     exists d, nth_error (dataset ds) k = Some d /\ e = s + session_len d - seq) /\
  (forall k s e s' e', nth_error (bins ds) k = Some (s, e) ->
     nth_error (bins ds) (S k) = Some (s', e') -> e + 1 = s') /\
  length ds = windows_total seq ss.
Proof.
  intros Hb. destruct (build_kitti_ok _ _ _ _ Hb) as (Hne & Hds & _ & Hbins & Hlen).
  rewrite Hbins, Hds. repeat split.
  - destruct ss as [|d r]; [congruence|]. apply bins_from_first.
  - intros k s e Hk. exact (bins_from_nth _ _ _ _ _ _ Hk).
  - intros k s e s' e' Hk Hk'. exact (bins_from_contiguous _ _ _ _ _ _ _ _ Hk Hk').
  - rewrite Hlen, final_end_sum. lia.
Qed.

(** C1: every index in [[0, len(dataset))] is held by a bin [k]; the loop of
    [__getitem__] resolves it to session [k] at the offset
    [index - bin_start], which lies in [[0, length - window_length]]; when
    every session holds a window, no other bin holds the index. Where the
    module is imported ([time] unbound), [__getitem__] then raises
    [NameError] at [time.time()] and returns no window; only when the file
    runs as a script does it return what [get_data(offset, seq_size)] of
    that session returns. *)
Theorem getitem_resolves `{Sensors} ty seq ss ds index :
  build_kitti ty seq ss = Ok ds ->
  0 <= index < length ds ->
  exists k d off,
    nth_error (dataset ds) k = Some d /\
    scan_bins (bins ds) index 0 = (off, Z.of_nat k) /\
    0 <= off <= session_len d - seq_size ds /\
    (exists bs be, nth_error (bins ds) k = Some (bs, be) /\ bs <= index <= be /\
                   off = index - bs) /\
    getitem false ds index = ([], Err NameError) /\
    snd (getitem true ds index) =
      match snd (get_data d off (seq_size ds)) with
      | Ok data => Ok (Some data)
      | Err e => Err e
      end /\
    (Forall (long_enough seq) (dataset ds) ->
     forall j bs be, nth_error (bins ds) j = Some (bs, be) -> bs <= index <= be -> j = k).
Proof.
  intros Hb Hx. destruct (build_kitti_ok _ _ _ _ Hb) as (Hne & Hds & Hseq & Hbins & Hlen).
  destruct (scan_bins_cover seq (-1) ss 0 index) as (k & s & e & Hk & Hse & Hsc); [lia|].
  destruct (bins_from_nth _ _ _ _ _ _ Hk) as (d & Hd & He).
  assert (Hsc' : scan_bins (bins ds) index 0 = (index - s, Z.of_nat k))
    by (rewrite Hbins, Hsc; f_equal; lia).
  exists k, d, (index - s). repeat split.
  - rewrite Hds. exact Hd.
  - exact Hsc'.
  - lia.
  - rewrite Hseq. lia.
  - exists s, e. rewrite Hbins. repeat split; [exact Hk | lia | lia].
  - unfold getitem. rewrite Hsc'.
    replace ((index - s <? 0) || (Z.of_nat k <? 0)) with false
      by (symmetry; apply orb_false_iff; split; apply Z.ltb_ge; lia).
    reflexivity.
  - unfold getitem. rewrite Hsc'.
    replace ((index - s <? 0) || (Z.of_nat k <? 0)) with false
      by (symmetry; apply orb_false_iff; split; apply Z.ltb_ge; lia).
    rewrite snd_mbind. cbn [snd mret]. rewrite snd_mbind. rewrite Hds, (py_index_nat _ _ _ Hd). cbn [snd mlift].
    rewrite snd_mbind. destruct (snd (get_data d (index - s) (seq_size ds))); reflexivity.
  - intros Hlong j bs be Hj Hin. rewrite Hbins in Hj. rewrite Hds in Hlong.
    destruct (Nat.lt_total j k) as [Hlt | [Heq | Hgt]].
    + pose proof (bins_from_ordered _ _ _ _ _ _ _ _ _ Hlong Hlt Hj Hk). lia.
    + exact Heq.
    + pose proof (bins_from_ordered _ _ _ _ _ _ _ _ _ Hlong Hgt Hk Hj). lia.
Qed.

(** C7 (as the code does it): when every session holds a window, an index
    outside [[0, len(dataset))] is held by no bin, and [__getitem__] prints
    its error line and returns [None]; it raises nothing, whether or not
    [time] is bound (the branch returns before [time.time()]). *)
Theorem getitem_out_of_range `{Sensors} ty seq ss ds index time_bound :
  build_kitti ty seq ss = Ok ds ->
  Forall (long_enough seq) ss ->
  index < 0 \/ length ds <= index ->
  getitem time_bound ds index = ([ErrNoBins], Ok None).
Proof.
  intros Hb Hlong Hx. destruct (build_kitti_ok _ _ _ _ Hb) as (Hne & Hds & Hseq & Hbins & Hlen).
  unfold getitem.
  rewrite (scan_bins_none (bins ds) index 0).
  - reflexivity.
  - intros s e Hin. rewrite Hbins in Hin. apply In_nth_error in Hin as [k Hk].
    pose proof (bins_from_start_ge _ _ _ _ _ _ Hlong Hk).
    pose proof (bins_from_end_le _ _ _ _ _ _ Hlong Hk). lia.
Qed.

(** C4 (as the code does it): [Kitti.__init__] checks no session length.
    Once [cfg] resolves and the sessions of the split load, construction
    succeeds, and a session shorter than the window gets a bin whose end lies
    before its start. *)
Theorem kitti_init_no_length_check `{FileSystem} globals config ty cfg split ss :
  assoc "cfg" globals = Some cfg ->
  assoc ty (splits (datasets_kitti cfg)) = Some split ->
  load_sessions (root_path (datasets_kitti cfg)) (datasets_kitti cfg) split = Ok ss ->
  ss <> [] ->
  exists ds, kitti_init globals config ty = Ok ds /\ dataset ds = ss /\
    bins ds = bins_from (sequence_size cfg) (-1) ss /\
    (forall k d s e, nth_error ss k = Some d -> nth_error (bins ds) k = Some (s, e) ->
       session_len d < sequence_size cfg -> e < s).
Proof.
  intros Hg Hs Hl Hne. unfold kitti_init. rewrite Hg, Hs, Hl. cbn [rbind].
  destruct (build_kitti_nonempty ty (sequence_size cfg) ss Hne) as [ds Hds].
  rewrite Hds. exists ds. split; [reflexivity|].
  destruct (build_kitti_ok _ _ _ _ Hds) as (_ & Hd & _ & Hbins & _).
  repeat split; try assumption.
  intros k d s e Hk Hb Hshort. rewrite Hbins in Hb.
  destruct (bins_from_nth _ _ _ _ _ _ Hb) as (d' & Hd' & He).
  rewrite Hk in Hd'. inversion Hd'; subst. lia.
Qed.

(** C9: [Kitti.__init__] never reads its [config] argument: its outcome is
    the same for every [config], and where the module has no global [cfg]
    it raises [NameError]. *)
Theorem kitti_init_reads_global_cfg `{FileSystem} globals ty :
  assoc "cfg" globals = None ->
  (forall c1 c2, kitti_init globals c1 ty = kitti_init globals c2 ty) /\
  (forall config, kitti_init globals config ty = Err NameError).
Proof.
  intros Hg. split.
  - intros c1 c2. reflexivity.
  - intros config. unfold kitti_init. rewrite Hg. reflexivity.
Qed.

(** ** The window query *)

Lemma py_index_in_range {A} (l : list A) (j : Z) :
  0 <= j < py_len l ->
  exists x, nth_error l (Z.to_nat j) = Some x /\ py_index l j = Ok x.
Proof.
  intros Hj. unfold py_len in Hj.
  destruct (nth_error l (Z.to_nat j)) as [x|] eqn:Hx.
  - exists x. split; [reflexivity|].
    rewrite <- (Z2Nat.id j) by lia. apply py_index_nat. exact Hx.
  - apply nth_error_None in Hx. lia.
Qed.

Lemma py_index_negative {A} (l : list A) (i : Z) :
  - py_len l <= i < 0 -> py_index l i = py_index l (py_len l + i).
Proof.
  intros Hi. unfold py_index, py_len in *.
  replace (i <? 0) with true by (symmetry; apply Z.ltb_lt; lia).
  replace (Z.of_nat (List.length l) + i <? 0) with false by (symmetry; apply Z.ltb_ge; lia).
  replace (i + Z.of_nat (List.length l)) with (Z.of_nat (List.length l) + i) by lia.
  reflexivity.
Qed.

Lemma argwhere_from_spec k m i :
  In i (argwhere_from k m) <-> (k <= i)%nat /\ nth_error m (i - k) = Some true.
Proof.
  revert k; induction m as [|b m IH]; intros k; simpl.
  - split; [intros [] | intros [_ H]; destruct (i - k)%nat; discriminate].
  - assert (Hstep : (S k <= i)%nat /\ nth_error m (i - S k) = Some true <->
                    (S k <= i)%nat /\ nth_error (b :: m) (i - k) = Some true).
    { split; intros [Hle Hn]; split; try exact Hle.
      - replace (i - k)%nat with (S (i - S k)) by lia. exact Hn.
      - replace (i - k)%nat with (S (i - S k)) in Hn by lia. exact Hn. }
    destruct b.
    + simpl. rewrite IH, Hstep. split.
      * intros [<- | [Hle Hn]]; [rewrite Nat.sub_diag; split; [lia | reflexivity] | split; [lia | exact Hn]].
      * intros [Hle Hn]. destruct (Nat.eq_dec k i) as [<- | Hne]; [left; reflexivity|].
        right. split; [lia | exact Hn].
    + rewrite IH, Hstep. split.
      * intros [Hle Hn]. split; [lia | exact Hn].
      * intros [Hle Hn]. destruct (Nat.eq_dec k i) as [<- | Hne].
        -- rewrite Nat.sub_diag in Hn. discriminate.
        -- split; [lia | exact Hn].
Qed.

Lemma argwhere_from_sorted k m : StronglySorted lt (argwhere_from k m).
Proof.
  revert k; induction m as [|b m IH]; intros k; simpl; [constructor|].
  destruct b; [|apply IH].
  constructor; [apply IH|].
  apply Forall_forall. intros i Hi. apply argwhere_from_spec in Hi. lia.
Qed.

Lemma imu_select_spec ts t0 t1 i :
  In i (imu_select ts t0 t1) <->
  exists t, nth_error ts i = Some t /\ dt_ge t t0 = true /\ dt_lt t t1 = true.
Proof.
  unfold imu_select. rewrite argwhere_from_spec, Nat.sub_0_r.
  unfold imu_mask. rewrite nth_error_map.
  destruct (nth_error ts i) as [t|]; simpl.
  - split.
    + intros [_ H]. injection H as H'. apply andb_true_iff in H' as [H1 H2].
      exists t. auto.
    + intros (t' & Ht & H1 & H2). inversion Ht; subst.
      split; [lia|]. rewrite H1, H2. reflexivity.
  - split; [intros [_ H]; discriminate | intros (t' & Ht & _); discriminate].
Qed.

Section WindowFacts.
Context `{SN : Sensors}.

(** The successful runs of [get_data]: all of them take the [else] branch. *)
Lemma get_data_ok s start len out d :
  get_data s start len = (out, Ok d) ->
  exists t0 t1 imgs otxs firsts,
    window_interval s start len = Ok (t0, t1) /\
    rmapM (get_velo_image s) (zrange start (start + len)) = Ok imgs /\
    imu_select (timestamps_imu s) t0 t1 <> [] /\
    rmapM (load_oxt_lazy s) (map Z.of_nat (imu_select (timestamps_imu s) t0 t1)) = Ok otxs /\
    rmapM (fun otx => py_index otx 0) otxs = Ok firsts /\
    d = {| images := imgs; imu := ImuRows (map imu_row firsts);
           ground_truth := map T_w_imu_flatten firsts |}.
Proof.
  unfold get_data. intros H.
  destruct (window_interval s start len) as [[t0 t1]|e] eqn:Hw; [|discriminate H].
  cbn [mbind mlift] in H.
  destruct (rmapM (get_velo_image s) (zrange start (start + len))) as [imgs|e] eqn:Hi;
    [|discriminate H].
  cbn [mbind mlift] in H.
  destruct (List.length (imu_select (timestamps_imu s) t0 t1) =? 0)%nat eqn:Hz.
  - cbn in H. discriminate H.
  - destruct (rmapM (load_oxt_lazy s) (map Z.of_nat (imu_select (timestamps_imu s) t0 t1)))
      as [otxs|e] eqn:Ho; [|discriminate H].
    cbn [mbind mlift] in H.
    destruct (rmapM (fun otx => py_index otx 0) otxs) as [firsts|e] eqn:Hf; [|discriminate H].
    cbn in H. inversion H; subst.
    exists t0, t1, imgs, otxs, firsts. repeat split; try reflexivity; try assumption.
    intros Hnil. rewrite Hnil in Hz. discriminate Hz.
Qed.

End WindowFacts.

(** ** Claims on the window query and on single scans *)

(** C2: for a window inside the scan timestamps, [get_data] takes the
    interval [[t0, t1)] from the scan timestamps at [start_index] and
    [start_index + length - 1]; the inertial indices it selects are exactly
    those [i] with [t0 <= timestamps_imu[i] < t1], in increasing order; and a
    successful call returns the readings loaded at these indices, in this
    order. *)
Theorem get_data_imu_selection `{Sensors} s start len :
  1 <= len -> 0 <= start -> start + len <= py_len (timestamps_velo s) ->
  exists t0 t1,
    window_interval s start len = Ok (t0, t1) /\
    nth_error (timestamps_velo s) (Z.to_nat start) = Some t0 /\
    nth_error (timestamps_velo s) (Z.to_nat (start + len - 1)) = Some t1 /\
    (forall i, In i (imu_select (timestamps_imu s) t0 t1) <->
       exists t, nth_error (timestamps_imu s) i = Some t /\
                 dt_ge t t0 = true /\ dt_lt t t1 = true) /\
    StronglySorted lt (imu_select (timestamps_imu s) t0 t1) /\
    (forall out d, get_data s start len = (out, Ok d) ->
       exists otxs firsts,
         rmapM (load_oxt_lazy s) (map Z.of_nat (imu_select (timestamps_imu s) t0 t1)) = Ok otxs /\
         rmapM (fun otx => py_index otx 0) otxs = Ok firsts /\
         imu d = ImuRows (map imu_row firsts)).
Proof.
  intros Hlen Hstart Hend.
  destruct (py_index_in_range (timestamps_velo s) start) as (t0 & H0 & Hi0); [lia|].
  destruct (py_index_in_range (timestamps_velo s) (start + len - 1)) as (t1 & H1 & Hi1); [lia|].
  assert (Hw : window_interval s start len = Ok (t0, t1))
    by (unfold window_interval; rewrite Hi0, Hi1; reflexivity).
  exists t0, t1. repeat split; try assumption.
  - intros Hin. apply imu_select_spec. exact Hin.
  - intros Hin. apply imu_select_spec. exact Hin.
  - apply argwhere_from_sorted.
  - intros out d Hd.
    destruct (get_data_ok _ _ _ _ _ Hd)
      as (t0' & t1' & imgs & otxs & firsts & Hw' & _ & _ & Ho & Hf & ->).
    rewrite Hw in Hw'. inversion Hw'; subst.
    exists otxs, firsts. repeat split; assumption.
Qed.

(** C5 (a defect): when no inertial timestamp falls in the window's interval,
    [get_data] prints its one warning, then raises [UnboundLocalError]: [gt]
    is assigned only in the [else] branch, and the dict reads it. *)
Theorem get_data_empty_window_raises `{Sensors} s start len t0 t1 imgs :
  window_interval s start len = Ok (t0, t1) ->
  rmapM (get_velo_image s) (zrange start (start + len)) = Ok imgs ->
  imu_select (timestamps_imu s) t0 t1 = [] ->
  get_data s start len = ([WarnNoImu start t0 t1], Err UnboundLocalError).
Proof.
  intros Hw Hi Hsel. unfold get_data. rewrite Hw. cbn [mbind mlift].
  rewrite Hi. cbn [mbind mlift]. rewrite Hsel. reflexivity.
Qed.

(** C6: every dict [get_data] returns has as many inertial readings as
    ground-truth poses. *)
Theorem get_data_lengths_agree `{Sensors} s start len out d :
  get_data s start len = (out, Ok d) ->
  imu_len (imu d) = List.length (ground_truth d).
Proof.
  intros Hd.
  destruct (get_data_ok _ _ _ _ _ Hd) as (t0 & t1 & imgs & otxs & firsts & _ & _ & _ & _ & _ & ->).
  simpl. rewrite !length_map. reflexivity.
Qed.

(** C10: with [N] scans, an index [idx] in [[-N, 0)] does not raise in
    [get_velo_image] nor in [get_velo]: both read the file of scan [N + idx]. *)
Theorem get_velo_negative_index `{Sensors} s idx :
  - py_len (velo_files s) <= idx < 0 ->
  exists f,
    nth_error (velo_files s) (Z.to_nat (py_len (velo_files s) + idx)) = Some f /\
    get_velo_image s idx = range_image (image_height s) (image_width s) (fov_up s) (fov_down s) f /\
    get_velo_image s idx = get_velo_image s (py_len (velo_files s) + idx) /\
    get_velo s idx = load_velo_scan f /\
    get_velo s idx = get_velo s (py_len (velo_files s) + idx).
Proof.
  intros Hidx.
  destruct (py_index_in_range (velo_files s) (py_len (velo_files s) + idx)) as (f & Hf & Hp);
    [lia|].
  exists f. unfold get_velo_image, get_velo.
  rewrite (py_index_negative _ _ Hidx), Hp. repeat split; assumption.
Qed.

(** ** Timestamp lines *)

Example kitti_line_ex :
  strptime_kitti (drop_last4 (kitti_line 2011 9 26 13 2 25 964389445))
  = Ok (mkdt 2011 9 26 13 2 25 964389).
Proof. vm_compute. reflexivity. Qed.

(** [strptime] accepts one-digit fields as Python's patterns do: a line
    with month [9] instead of [09] parses to the same time. *)
Example strptime_one_digit_month_ex :
  strptime_kitti (drop_last4 (list_ascii_of_string "2011-9-26 13:02:25.964389445
"))
  = Ok (mkdt 2011 9 26 13 2 25 964389).
Proof. vm_compute. reflexivity. Qed.


Lemma digit_char_ok v :
  0 <= v <= 9 ->
  is_digit (digit_char v) = true /\ digit_val (digit_char v) = v /\
  is_space (digit_char v) = false.
Proof.
  intros Hv.
  assert (v = 0 \/ v = 1 \/ v = 2 \/ v = 3 \/ v = 4 \/ v = 5 \/ v = 6 \/ v = 7 \/
          v = 8 \/ v = 9) as Hc by lia.
  repeat (destruct Hc as [-> | Hc]; [vm_compute; auto|]).
  subst. vm_compute. auto.
Qed.

Lemma fmt_digit_ok k n : 0 <= (n / 10 ^ Z.of_nat k) mod 10 <= 9.
Proof. pose proof (Z.mod_pos_bound (n / 10 ^ Z.of_nat k) 10). lia. Qed.

Lemma fmt_length k n : List.length (fmt k n) = k.
Proof. induction k as [|k IH]; simpl; [reflexivity | rewrite IH; reflexivity]. Qed.

Lemma fmt_split j k n : fmt (k + j) n = fmt k (n / 10 ^ Z.of_nat j) ++ fmt j n.
Proof.
  induction k as [|k IH]; [reflexivity|].
  cbn [Nat.add fmt app]. rewrite IH. f_equal. f_equal.
  assert (Hj : 10 ^ Z.of_nat j <> 0) by (apply Z.pow_nonzero; lia).
  assert (Hk : 0 < 10 ^ Z.of_nat k) by (apply Z.pow_pos_nonneg; lia).
  rewrite Z.div_div by assumption. f_equal. f_equal.
  rewrite <- Z.pow_add_r by lia. f_equal. lia.
Qed.

Lemma drop_last4_app (a b : list ascii) :
  List.length b = 4%nat -> drop_last4 (a ++ b) = a.
Proof.
  intros Hb. unfold drop_last4. rewrite length_app, Hb.
  replace (List.length a + 4 - 4)%nat with (List.length a + 0)%nat by lia.
  rewrite firstn_app_2. simpl. apply app_nil_r.
Qed.

Ltac digit_cases v :=
  let Hc := fresh "Hc" in
  assert (v = 0 \/ v = 1 \/ v = 2 \/ v = 3 \/ v = 4 \/ v = 5 \/ v = 6 \/ v = 7 \/
          v = 8 \/ v = 9) as Hc by lia;
  destruct Hc as [->|[->|[->|[->|[->|[->|[->|[->|[->| ->]]]]]]]]].

Ltac leb_facts :=
  repeat match goal with
  | E : (_ <=? _) = true |- _ => apply Z.leb_le in E
  | E : (_ <=? _) = false |- _ => apply Z.leb_gt in E
  | E : _ && _ = true |- _ => apply andb_true_iff in E as [? ?]
  | E : _ && _ = false |- _ => apply andb_false_iff in E as [?|?]
  end.

Lemma pdigit_digit v r : 0 <= v <= 9 -> pdigit (digit_char v :: r) = [(v, r)].
Proof. intros Hv. digit_cases v; reflexivity. Qed.

Lemma pdigits_fmt k acc n rest :
  pdigits k acc (fmt k n ++ rest) =
  [(acc * 10 ^ Z.of_nat k + n mod 10 ^ Z.of_nat k, rest)].
Proof.
  revert acc; induction k as [|k IH]; intros acc.
  - cbn [pdigits fmt app]. unfold pret.
    replace (acc * 10 ^ Z.of_nat 0 + n mod 10 ^ Z.of_nat 0) with acc; [reflexivity|].
    cbn. rewrite Z.mod_1_r. lia.
  - cbn [fmt app pdigits]. unfold pbind at 1.
    rewrite (pdigit_digit _ _ (fmt_digit_ok k n)). cbn [flat_map]. cbv beta iota.
    rewrite IH, app_nil_r. f_equal. f_equal.
    rewrite Nat2Z.inj_succ, Z.pow_succ_r by lia.
    rewrite (Z.mul_comm 10 (10 ^ Z.of_nat k)).
    rewrite Z.rem_mul_r by (try apply Z.pow_nonzero; lia).
    ring.
Qed.

Lemma pdigits_short j k acc u : (k < j)%nat -> pdigits j acc (fmt k u) = [].
Proof.
  revert j acc; induction k as [|k IH]; intros j acc Hkj;
    (destruct j as [|j]; [lia|]).
  - reflexivity.
  - cbn [fmt pdigits]. unfold pbind at 1.
    rewrite (pdigit_digit _ _ (fmt_digit_ok k u)). cbn [flat_map]. cbv beta iota.
    rewrite IH by lia. reflexivity.
Qed.

Lemma pfrac_from_fmt m k u :
  (1 <= k <= m)%nat -> 0 <= u < 10 ^ Z.of_nat k ->
  exists tl, pfrac_from m (fmt k u) = (u * 10 ^ (6 - Z.of_nat k), []) :: tl.
Proof.
  intros Hk Hu. induction m as [|m IH]; [lia|].
  cbn [pfrac_from]. unfold palt.
  destruct (Nat.eq_dec k (S m)) as [->|Hne].
  - unfold pbind at 1.
    pose proof (pdigits_fmt (S m) 0 u []) as Hd. rewrite app_nil_r in Hd.
    rewrite Hd. cbn [flat_map]. cbv beta iota. unfold pret.
    rewrite Z.mod_small by exact Hu. rewrite Z.mul_0_l, Z.add_0_l.
    eexists. reflexivity.
  - unfold pbind at 1. rewrite pdigits_short by lia. cbn [flat_map app].
    apply IH. lia.
Qed.

Lemma pbind_pfrac_k {B} k u (g : Z -> parser B) :
  (1 <= k <= 6)%nat -> 0 <= u < 10 ^ Z.of_nat k ->
  exists tl, pbind pfrac g (fmt k u) = g (u * 10 ^ (6 - Z.of_nat k)) [] ++ tl.
Proof.
  intros Hk Hu. destruct (pfrac_from_fmt 6 k u Hk Hu) as (tl & E).
  unfold pbind, pfrac. rewrite E. cbn [flat_map]. eexists. reflexivity.
Qed.

Lemma pbind_pY {B} y rest (f : Z -> parser B) :
  0 <= y < 10000 -> pbind p_Y f (fmt 4 y ++ rest) = f y rest.
Proof.
  intros Hy. unfold pbind, p_Y. rewrite pdigits_fmt. cbn [flat_map]. cbv beta iota.
  rewrite app_nil_r. f_equal. rewrite Z.mod_small by (cbn; lia). cbn. lia.
Qed.

Lemma pbind_plit {B} c rest (f : unit -> parser B) :
  pbind (plit c) f ([c] ++ rest) = f tt rest.
Proof.
  unfold plit, pchar, pbind. cbn [app]. rewrite Ascii.eqb_refl.
  cbn [flat_map app]. cbv beta iota. unfold pret. cbn [flat_map]. cbv beta iota.
  apply app_nil_r.
Qed.

Lemma plit_digit {B} c d r (f : unit -> parser B) :
  is_digit c = false -> is_digit d = true -> pbind (plit c) f (d :: r) = [].
Proof.
  intros Hc Hd. unfold plit, pchar, pbind.
  destruct (Ascii.eqb c d) eqn:E; [|reflexivity].
  apply Ascii.eqb_eq in E. subst. congruence.
Qed.

Lemma digit_not_space d : is_digit d = true -> is_space d = false.
Proof.
  unfold is_digit, is_space. intros Hd. apply andb_true_iff in Hd as [H1 H2].
  apply Nat.leb_le in H1, H2.
  apply orb_false_iff; split; apply andb_false_iff;
    first [left; apply Nat.leb_gt; lia | right; apply Nat.leb_gt; lia].
Qed.

Lemma pspaces1_digit {B} d r (f : unit -> parser B) :
  is_digit d = true -> pbind pspaces1 f (d :: r) = [].
Proof.
  intros Hd. unfold pbind, pspaces1. cbn [space_suffixes].
  rewrite (digit_not_space _ Hd). reflexivity.
Qed.

Lemma pbind_space {B} k n rest (f : unit -> parser B) :
  pbind pspaces1 f ([" "%char] ++ fmt (S k) n ++ rest) = f tt (fmt (S k) n ++ rest).
Proof.
  unfold pbind, pspaces1. cbn [app fmt space_suffixes].
  replace (is_space " "%char) with true by reflexivity.
  destruct (digit_char_ok _ (fmt_digit_ok k n)) as (_ & _ & Hs).
  rewrite Hs. cbn [app map flat_map]. cbv beta iota. apply app_nil_r.
Qed.

(** A two-digit field pattern applied to two digits: the two-digit
    alternatives, when they match, come before the one-digit ones. *)
Lemma pbind_field {B} (P : parser Z) (ok2 ok1 : Z -> bool) (f : Z -> parser B) n c rest :
  (forall a b r, 0 <= a <= 9 -> 0 <= b <= 9 ->
     P (digit_char a :: digit_char b :: r) =
     (if ok2 (10 * a + b) then [(10 * a + b, r)] else []) ++
     (if ok1 a then [(a, digit_char b :: r)] else [])) ->
  0 <= n < 100 ->
  (forall x d r, is_digit d = true -> f x (d :: r) = []) ->
  pbind P f (fmt 2 n ++ [c] ++ rest) = if ok2 n then f n ([c] ++ rest) else [].
Proof.
  intros Hshape Hn Hf.
  assert (Ha : n / 10 ^ Z.of_nat 1 mod 10 = n / 10).
  { cbn. apply Z.mod_small. split; [apply Z.div_pos; lia | apply Z.div_lt_upper_bound; lia]. }
  assert (Hb : n / 10 ^ Z.of_nat 0 mod 10 = n mod 10) by (cbn; rewrite Z.div_1_r; reflexivity).
  assert (Ha' : 0 <= n / 10 <= 9)
    by (split; [apply Z.div_pos; lia | apply Z.lt_succ_r, Z.div_lt_upper_bound; lia]).
  assert (Hb' : 0 <= n mod 10 <= 9) by (pose proof (Z.mod_pos_bound n 10); lia).
  assert (Hdm : 10 * (n / 10) + n mod 10 = n) by (symmetry; apply Z.div_mod; lia).
  cbn [fmt app]. rewrite Ha, Hb.
  unfold pbind. rewrite (Hshape _ _ _ Ha' Hb'), flat_map_app, Hdm.
  destruct (digit_char_ok _ Hb') as (Hd & _ & _).
  destruct (ok2 n), (ok1 (n / 10)); cbn [flat_map app]; cbv beta iota;
    rewrite ?(Hf (n / 10) _ _ Hd); rewrite ?app_nil_r; reflexivity.
Qed.

Lemma p_m_shape a b r :
  0 <= a <= 9 -> 0 <= b <= 9 ->
  p_m (digit_char a :: digit_char b :: r) =
  (if (1 <=? 10 * a + b) && (10 * a + b <=? 12) then [(10 * a + b, r)] else []) ++
  (if 1 <=? a then [(a, digit_char b :: r)] else []).
Proof. intros Ha Hb. digit_cases a; digit_cases b; reflexivity. Qed.

Lemma p_d_shape a b r :
  0 <= a <= 9 -> 0 <= b <= 9 ->
  p_d (digit_char a :: digit_char b :: r) =
  (if (1 <=? 10 * a + b) && (10 * a + b <=? 31) then [(10 * a + b, r)] else []) ++
  (if 1 <=? a then [(a, digit_char b :: r)] else []).
Proof. intros Ha Hb. digit_cases a; digit_cases b; reflexivity. Qed.

Lemma p_H_shape a b r :
  0 <= a <= 9 -> 0 <= b <= 9 ->
  p_H (digit_char a :: digit_char b :: r) =
  (if 10 * a + b <=? 23 then [(10 * a + b, r)] else []) ++
  (if true then [(a, digit_char b :: r)] else []).
Proof. intros Ha Hb. digit_cases a; digit_cases b; reflexivity. Qed.

Lemma p_M_shape a b r :
  0 <= a <= 9 -> 0 <= b <= 9 ->
  p_M (digit_char a :: digit_char b :: r) =
  (if 10 * a + b <=? 59 then [(10 * a + b, r)] else []) ++
  (if true then [(a, digit_char b :: r)] else []).
Proof. intros Ha Hb. digit_cases a; digit_cases b; reflexivity. Qed.

Lemma p_S_shape a b r :
  0 <= a <= 9 -> 0 <= b <= 9 ->
  p_S (digit_char a :: digit_char b :: r) =
  (if 10 * a + b <=? 61 then [(10 * a + b, r)] else []) ++
  (if true then [(a, digit_char b :: r)] else []).
Proof. intros Ha Hb. digit_cases a; digit_cases b; reflexivity. Qed.

Ltac field_step shape ok2 ok1 :=
  rewrite (pbind_field _ ok2 ok1 _ _ _ _ shape) by
    (lia || (intros ? ? ? Hdg; cbv beta;
             first [apply plit_digit; [reflexivity | exact Hdg]
                   | apply pspaces1_digit; exact Hdg])).

Ltac valid_false :=
  match goal with
  |- _ = (if valid_datetime ?t then _ else _) =>
    destruct (valid_datetime t) eqn:Ev; [exfalso|reflexivity];
    unfold valid_datetime in Ev; cbn [year month day hour minute second] in Ev;
    leb_facts; lia
  end.

(** [strptime] on a line whose fields are written with their full widths
    and [k] sub-second digits: the fields and the fraction padded to six
    places, or [ValueError] when they do not make a real time. *)
Lemma strptime_fields y mo d h mi s k u :
  0 <= y < 10000 -> 0 <= mo < 100 -> 0 <= d < 100 -> 0 <= h < 100 ->
  0 <= mi < 100 -> 0 <= s < 100 -> (1 <= k <= 6)%nat -> 0 <= u < 10 ^ Z.of_nat k ->
  strptime_kitti
    (fmt 4 y ++ ["-"%char] ++ fmt 2 mo ++ ["-"%char] ++ fmt 2 d ++ [" "%char] ++
     fmt 2 h ++ [":"%char] ++ fmt 2 mi ++ [":"%char] ++ fmt 2 s ++ ["."%char] ++ fmt k u)
  = let t := mkdt y mo d h mi s (u * 10 ^ (6 - Z.of_nat k)) in
    if valid_datetime t then Ok t else Err ValueError.
Proof.
  intros Hy Hmo Hd Hh Hmi Hs Hk Hu. cbv zeta.
  assert (Hdm : days_in_month y mo <= 31)
    by (unfold days_in_month; destruct (mo =? 2);
        [destruct (is_leap y) | destruct ((mo =? 4) || (mo =? 6) || (mo =? 9) || (mo =? 11))];
        lia).
  unfold strptime_kitti, kitti_format.
  rewrite pbind_pY by lia. cbv beta.
  rewrite pbind_plit. cbv beta.
  field_step p_m_shape (fun v => (1 <=? v) && (v <=? 12)) (fun a => 1 <=? a).
  destruct ((1 <=? mo) && (mo <=? 12)) eqn:E1; [cbv beta iota|valid_false].
  rewrite pbind_plit. cbv beta.
  field_step p_d_shape (fun v => (1 <=? v) && (v <=? 31)) (fun a => 1 <=? a).
  destruct ((1 <=? d) && (d <=? 31)) eqn:E2; [cbv beta iota|valid_false].
  rewrite pbind_space. cbv beta.
  field_step p_H_shape (fun v => v <=? 23) (fun _ : Z => true).
  destruct (h <=? 23) eqn:E3; [cbv beta iota|valid_false].
  rewrite pbind_plit. cbv beta.
  field_step p_M_shape (fun v => v <=? 59) (fun _ : Z => true).
  destruct (mi <=? 59) eqn:E4; [cbv beta iota|valid_false].
  rewrite pbind_plit. cbv beta.
  field_step p_S_shape (fun v => v <=? 61) (fun _ : Z => true).
  destruct (s <=? 61) eqn:E5; [cbv beta iota|valid_false].
  rewrite pbind_plit. cbv beta.
  destruct (pbind_pfrac_k k u (fun f => pret (mkdt y mo d h mi s f)) Hk Hu) as (tl & Ef).
  rewrite Ef. reflexivity.
Qed.

Lemma strptime_stamp_line st :
  stamp_ok st -> strptime_kitti (drop_last4 (stamp_line st)) = Ok (stamp_truncated st).
Proof.
  destruct st as [y mo d h mi s ns].
  unfold stamp_ok, stamp_line, stamp_truncated; cbn [st_year st_month st_day st_hour st_minute st_second st_nanos].
  intros (Hy & Hmo & Hd & Hh & Hmi & Hs & Hns).
  assert (Hdm : days_in_month y mo <= 31)
    by (unfold days_in_month; destruct (mo =? 2);
        [destruct (is_leap y) | destruct ((mo =? 4) || (mo =? 6) || (mo =? 9) || (mo =? 11))];
        lia).
  assert (E : kitti_line y mo d h mi s ns =
    (fmt 4 y ++ ["-"%char] ++ fmt 2 mo ++ ["-"%char] ++ fmt 2 d ++ [" "%char] ++
     fmt 2 h ++ [":"%char] ++ fmt 2 mi ++ [":"%char] ++ fmt 2 s ++ ["."%char] ++
     fmt 6 (ns / 1000)) ++ (fmt 3 ns ++ ["010"%char])).
  { unfold kitti_line. rewrite (fmt_split 3 6). rewrite <- !app_assoc. reflexivity. }
  rewrite E, drop_last4_app by (rewrite length_app, fmt_length; reflexivity).
  assert (Hu : 0 <= ns / 1000 < 10 ^ Z.of_nat 6)
    by (split; [apply Z.div_pos; lia | apply Z.div_lt_upper_bound; cbn in *; lia]).
  rewrite strptime_fields by (first [exact Hu | lia]). cbv zeta.
  replace (ns / 1000 * 10 ^ (6 - Z.of_nat 6)) with (ns / 1000) by (cbn; lia).
  replace (valid_datetime (mkdt y mo d h mi s (ns / 1000))) with true.
  - reflexivity.
  - symmetry. unfold valid_datetime. cbn [year month day hour minute second].
    repeat rewrite andb_true_iff. repeat split; apply Z.leb_le; lia.
Qed.

Lemma parse_timestamp_lines_stamps sts :
  Forall stamp_ok sts ->
  parse_timestamp_lines (map stamp_line sts) = Ok (map stamp_truncated sts).
Proof.
  induction sts as [|st r IH]; intros Hok; [reflexivity|].
  inversion Hok as [|? ? Hst Hr]; subst.
  unfold parse_timestamp_lines in *. cbn [map rmapM].
  rewrite (strptime_stamp_line _ Hst). cbn [rbind]. rewrite (IH Hr). reflexivity.
Qed.

(** C8: when both timestamp files of a session consist of lines
    [YYYY-MM-DD HH:MM:SS.] + nine digits + ['\n'] denoting real times, the
    session is built and its timestamps are these times truncated to the
    microsecond. *)
Theorem kitti_raw_data_timestamps `{FileSystem} base date drive cfg sts_imu sts_velo :
  read_lines (path_join (path_join (path_join base date) drive) "oxts/timestamps.txt")
    = Ok (map stamp_line sts_imu) ->
  read_lines (path_join (path_join (path_join base date) drive) "velodyne_points/timestamps.txt")
    = Ok (map stamp_line sts_velo) ->
  Forall stamp_ok sts_imu -> Forall stamp_ok sts_velo ->
  exists s, kitti_raw_data base date drive cfg = Ok s /\
    timestamps_imu s = map stamp_truncated sts_imu /\
    timestamps_velo s = map stamp_truncated sts_velo.
Proof.
  intros Hi Hv Oi Ov. unfold kitti_raw_data, load_timestamp_file.
  rewrite Hi. cbn [rbind]. rewrite (parse_timestamp_lines_stamps _ Oi). cbn [rbind].
  rewrite Hv. cbn [rbind]. rewrite (parse_timestamp_lines_stamps _ Ov). cbn [rbind].
  eexists. split; [reflexivity|]. split; reflexivity.
Qed.

(** ** More of the loader *)

(** *** Facts about [rmapM], [range] and subscription *)

Lemma rmapM_Forall2 {A B} (f : A -> result B) l ys :
  rmapM f l = Ok ys -> Forall2 (fun x y => f x = Ok y) l ys.
Proof.
  revert ys; induction l as [|x r IH]; intros ys H; cbn [rmapM] in H.
  - injection H as <-. constructor.
  - destruct (f x) as [y|e] eqn:Hx; cbn [rbind] in H; [|discriminate H].
    destruct (rmapM f r) as [ys'|e] eqn:Hr; cbn [rbind] in H; [|discriminate H].
    injection H as <-. constructor; [exact Hx | apply IH; reflexivity].
Qed.

Lemma rmapM_err_in {A B} (f : A -> result B) l e :
  rmapM f l = Err e -> exists x, In x l /\ f x = Err e.
Proof.
  induction l as [|x r IH]; intros H; cbn [rmapM] in H; [discriminate H|].
  destruct (f x) as [y|e'] eqn:Hx; cbn [rbind] in H.
  - destruct (rmapM f r) as [ys|e'] eqn:Hr; cbn [rbind] in H; [discriminate H|].
    injection H as ->. destruct (IH eq_refl) as (x' & Hin & Hx').
    exists x'. split; [right; exact Hin | exact Hx'].
  - injection H as ->. exists x. split; [left; reflexivity | exact Hx].
Qed.

Lemma rmapM_err_uniform {A B} (f : A -> result B) l E :
  (forall x e, f x = Err e -> e = E) ->
  (exists x e, In x l /\ f x = Err e) -> rmapM f l = Err E.
Proof.
  intros Hu. induction l as [|x r IH]; intros (x' & e & Hin & Hx); [destruct Hin|].
  cbn [rmapM]. destruct (f x) as [y|e'] eqn:Hfx; cbn [rbind].
  - destruct Hin as [<- | Hin]; [congruence|].
    rewrite IH by (exists x', e; split; assumption). reflexivity.
  - rewrite (Hu _ _ Hfx). reflexivity.
Qed.

Lemma forall2_nth {A B} (R : A -> B -> Prop) l1 l2 k x :
  Forall2 R l1 l2 -> nth_error l1 k = Some x ->
  exists y, nth_error l2 k = Some y /\ R x y.
Proof.
  intros H; revert k; induction H as [|a b l1 l2 Hab Hr IH]; intros k Hk.
  - destruct k; discriminate Hk.
  - destruct k as [|k]; cbn in Hk |- *.
    + injection Hk as <-. exists b. split; [reflexivity | exact Hab].
    + apply IH. exact Hk.
Qed.

Lemma rmapM_map_ok {A B C} (f : A -> result B) (g : B -> C) (h : A -> C) l ys :
  rmapM f l = Ok ys -> (forall x y, f x = Ok y -> g y = h x) -> map g ys = map h l.
Proof.
  intros H Hgh. apply rmapM_Forall2 in H.
  induction H as [|x y l' ys' Hxy _ IH]; [reflexivity|].
  cbn [map]. rewrite (Hgh _ _ Hxy), IH. reflexivity.
Qed.

Lemma zrange_length a b : List.length (zrange a b) = Z.to_nat (b - a).
Proof. unfold zrange. rewrite length_map, length_seq. reflexivity. Qed.

Lemma zrange_nth a b k :
  (k < Z.to_nat (b - a))%nat -> nth_error (zrange a b) k = Some (a + Z.of_nat k).
Proof.
  intros Hk. unfold zrange. rewrite nth_error_map, nth_error_seq.
  replace (k <? Z.to_nat (b - a))%nat with true by (symmetry; apply Nat.ltb_lt; exact Hk).
  reflexivity.
Qed.

Lemma py_index_out {A} (l : list A) i :
  ~ (- py_len l <= i < py_len l) -> py_index l i = Err IndexError.
Proof.
  intros Hi. unfold py_index, py_len in *. cbv zeta.
  destruct (i <? 0) eqn:Hneg; [apply Z.ltb_lt in Hneg | apply Z.ltb_ge in Hneg].
  - destruct ((0 <=? i + Z.of_nat (List.length l)) &&
              (i + Z.of_nat (List.length l) <? Z.of_nat (List.length l))) eqn:Hc;
      [|reflexivity].
    apply andb_true_iff in Hc as [H1 H2]. apply Z.leb_le in H1. apply Z.ltb_lt in H2. lia.
  - destruct ((0 <=? i) && (i <? Z.of_nat (List.length l))) eqn:Hc; [|reflexivity].
    apply andb_true_iff in Hc as [H1 H2]. apply Z.leb_le in H1. apply Z.ltb_lt in H2. lia.
Qed.

Lemma py_index_err {A} (l : list A) i e : py_index l i = Err e -> e = IndexError.
Proof.
  intros H. unfold py_index in H. cbv zeta in H.
  repeat match type of H with
    | context [match ?x with Some _ => _ | None => _ end] => destruct x
    | context [if ?c then _ else _] => destruct c
    end; congruence.
Qed.

Lemma py_index_bound {A} (l : list A) (i : nat) x :
  py_index l (Z.of_nat i) = Ok x -> (i < List.length l)%nat.
Proof.
  intros H. destruct (Nat.lt_ge_cases i (List.length l)) as [Hlt|Hge]; [exact Hlt|].
  rewrite py_index_out in H; [discriminate H|]. unfold py_len. lia.
Qed.

Lemma argwhere_from_length k m : (List.length (argwhere_from k m) <= List.length m)%nat.
Proof.
  revert k; induction m as [|b m IH]; intros k; [cbn; lia|].
  cbn [argwhere_from List.length]. destruct b; cbn [List.length]; specialize (IH (S k)); lia.
Qed.

(** An interval [[t, t)] holds no timestamp. *)
Lemma imu_select_empty_interval ts t : imu_select ts t t = [].
Proof.
  unfold imu_select, imu_mask. generalize 0%nat.
  induction ts as [|x r IH]; intros k; [reflexivity|].
  cbn [map argwhere_from]. unfold dt_ge. destruct (dt_lt x t); cbn; apply IH.
Qed.

(** *** Sessions and the dataset *)

Lemma kitti_raw_data_ids `{FileSystem} base dt dr cfg s :
  kitti_raw_data base dt dr cfg = Ok s -> date s = dt /\ drive s = dr.
Proof.
  unfold kitti_raw_data. intros Hs.
  destruct (load_timestamp_file _) as [ti|e]; cbn [rbind] in Hs; [|discriminate Hs].
  destruct (load_timestamp_file _) as [tv|e]; cbn [rbind] in Hs; [|discriminate Hs].
  injection Hs as <-. split; reflexivity.
Qed.

Lemma load_sessions_order `{FileSystem} root dsc split ss :
  load_sessions root dsc split = Ok ss ->
  map (fun s => (date s, drive s)) ss =
  flat_map (fun '(dt, drs) => map (fun dr => (dt, dr)) drs) split.
Proof.
  unfold load_sessions. intros Hl.
  match type of Hl with context [rbind ?m _] => destruct m as [sss|e] eqn:E end;
    cbn [rbind] in Hl; [|discriminate Hl].
  injection Hl as <-.
  rewrite concat_map, flat_map_concat_map. f_equal.
  apply (rmapM_map_ok _ _ _ _ _ E). intros [dt drs] ys Hys. cbv beta iota in Hys |- *.
  apply (rmapM_map_ok _ _ _ _ _ Hys). intros dr s Hs.
  apply kitti_raw_data_ids in Hs as [-> ->]. reflexivity.
Qed.

Lemma load_sessions_no_drives `{FileSystem} root dsc split :
  flat_map snd split = [] -> load_sessions root dsc split = Ok [].
Proof.
  intros Hnil. unfold load_sessions.
  assert (Hall : exists sss,
    rmapM (fun '(dt, drives) => rmapM (fun drive => kitti_raw_data root dt drive dsc) drives)
      split = Ok sss /\ concat sss = []).
  { induction split as [|[dt drs] r IH]; [exists []; split; reflexivity|].
    cbn [flat_map snd] in Hnil. apply app_eq_nil in Hnil as [-> Hr].
    destruct (IH Hr) as (sss & Hs & Hc).
    exists ([] :: sss). cbn [rmapM rbind]. rewrite Hs. split; [reflexivity | exact Hc]. }
  destruct Hall as (sss & Hs & Hc). rewrite Hs. cbn [rbind]. rewrite Hc. reflexivity.
Qed.

Lemma build_kitti_fields ty seq ss ds :
  build_kitti ty seq ss = Ok ds ->
  dataset ds = ss /\ length_each_drive ds = map session_len ss.
Proof.
  unfold build_kitti. intros H.
  destruct (py_index _ _) as [last|e]; cbn [rbind] in H; [|discriminate H].
  injection H as <-. split; reflexivity.
Qed.

(** *** The window query *)

Section WindowMore.
Context `{SN : Sensors}.

Lemma get_data_silent s start len out d :
  get_data s start len = (out, Ok d) -> out = [].
Proof.
  unfold get_data. intros H.
  destruct (window_interval s start len) as [[t0 t1]|e] eqn:Hw; [|discriminate H].
  cbn [mbind mlift] in H.
  destruct (rmapM (get_velo_image s) (zrange start (start + len))) as [imgs|e] eqn:Hi;
    [|discriminate H].
  cbn [mbind mlift] in H.
  destruct (List.length (imu_select (timestamps_imu s) t0 t1) =? 0)%nat eqn:Hz.
  - cbn in H. discriminate H.
  - destruct (rmapM (load_oxt_lazy s) (map Z.of_nat (imu_select (timestamps_imu s) t0 t1)))
      as [otxs|e] eqn:Ho; [|discriminate H].
    cbn [mbind mlift] in H.
    destruct (rmapM (fun otx => py_index otx 0) otxs) as [firsts|e] eqn:Hf; [|discriminate H].
    cbn in H. injection H as <- _. reflexivity.
Qed.

Lemma get_data_images s start len out d :
  get_data s start len = (out, Ok d) ->
  List.length (images d) = Z.to_nat len /\
  forall k, (k < Z.to_nat len)%nat ->
    exists img, nth_error (images d) k = Some img /\
                get_velo_image s (start + Z.of_nat k) = Ok img.
Proof.
  intros Hd.
  destruct (get_data_ok _ _ _ _ _ Hd) as (t0 & t1 & imgs & otxs & firsts & _ & Hi & _ & _ & _ & ->).
  cbn [images]. apply rmapM_Forall2 in Hi. split.
  - assert (HL := Hi). apply Forall2_length in HL.
    rewrite <- HL, zrange_length. f_equal. lia.
  - intros k Hk.
    destruct (forall2_nth _ _ _ k _ Hi (zrange_nth start (start + len) k ltac:(lia)))
      as (img & H1 & H2).
    exists img. split; assumption.
Qed.

Lemma get_data_imu_bounds s start len out d :
  get_data s start len = (out, Ok d) ->
  (1 <= imu_len (imu d) <= List.length (timestamps_imu s))%nat.
Proof.
  intros Hd.
  destruct (get_data_ok _ _ _ _ _ Hd)
    as (t0 & t1 & imgs & otxs & firsts & _ & _ & Hne & Ho & Hf & ->).
  cbn [imu imu_len]. rewrite length_map.
  apply rmapM_Forall2, Forall2_length in Ho. apply rmapM_Forall2, Forall2_length in Hf.
  rewrite length_map in Ho. rewrite <- Hf, <- Ho.
  assert (Hle : (List.length (imu_select (timestamps_imu s) t0 t1)
                 <= List.length (timestamps_imu s))%nat).
  { eapply Nat.le_trans; [apply argwhere_from_length|]. unfold imu_mask.
    rewrite length_map. lia. }
  assert (Hpos : (1 <= List.length (imu_select (timestamps_imu s) t0 t1))%nat).
  { destruct (imu_select (timestamps_imu s) t0 t1); [congruence | cbn; lia]. }
  lia.
Qed.

Lemma getitem_some tb ds index out d :
  getitem tb ds index = (out, Ok (Some d)) ->
  exists s idx o, get_data s idx (seq_size ds) = (o, Ok d) /\ out = o ++ [DeltaTime].
Proof.
  unfold getitem. intros H.
  destruct (scan_bins (bins ds) index 0) as [idx nd].
  destruct ((idx <? 0) || (nd <? 0)); [cbn in H; discriminate H|].
  destruct tb; cbn [mbind mret mraise app] in H; [|discriminate H].
  destruct (py_index (dataset ds) nd) as [s|e]; cbn [mbind mlift] in H; [|discriminate H].
  destruct (get_data s idx (seq_size ds)) as [o [d'|e]] eqn:Hg; cbn in H; [|discriminate H].
  injection H as <- <-. exists s, idx, o. split; [exact Hg | cbn; rewrite ?app_nil_r; reflexivity].
Qed.

End WindowMore.

(** *** Timestamp lines *)

Lemma strptime_err s e : strptime_kitti s = Err e -> e = ValueError.
Proof.
  unfold strptime_kitti. intros H.
  destruct (kitti_format s) as [|[t [|c r]] tl]; try destruct (valid_datetime t); congruence.
Qed.

(** *** Extra properties *)

(** Construction of the dataset raises [IndexError] when the chosen split
    lists no drive at all: [self.bins] is empty and [flatten()[-1]] fails. *)
Theorem kitti_init_empty_split_raises `{FileSystem} globals config ty cfg split :
  assoc "cfg" globals = Some cfg ->
  assoc ty (splits (datasets_kitti cfg)) = Some split ->
  flat_map snd split = [] ->
  kitti_init globals config ty = Err IndexError.
Proof.
  intros Hg Hs Hnil. unfold kitti_init. rewrite Hg, Hs.
  rewrite (load_sessions_no_drives _ _ _ Hnil). cbn [rbind]. reflexivity.
Qed.

(** The dataset holds one session per listed drive, in the order of the
    split (dates in order, each date's drives in order), and
    [length_each_drive] is the list of their scan counts. *)
Theorem kitti_init_session_order `{FileSystem} globals config ty cfg split ds :
  assoc "cfg" globals = Some cfg ->
  assoc ty (splits (datasets_kitti cfg)) = Some split ->
  kitti_init globals config ty = Ok ds ->
  map (fun s => (date s, drive s)) (dataset ds) =
    flat_map (fun '(dt, drs) => map (fun dr => (dt, dr)) drs) split /\
  length_each_drive ds = map session_len (dataset ds).
Proof.
  intros Hg Hs Hk. unfold kitti_init in Hk. rewrite Hg, Hs in Hk.
  destruct (load_sessions _ _ split) as [ss|e] eqn:Hl; cbn [rbind] in Hk; [|discriminate Hk].
  apply build_kitti_fields in Hk as [-> ->]. split; [|reflexivity].
  exact (load_sessions_order _ _ _ _ Hl).
Qed.

(** A timestamp line whose fields fit their digit widths is accepted exactly
    when it denotes a real time: then it parses to that time truncated to the
    microsecond; otherwise (month 13, February 30th, hour 24, second 60, ...)
    [strptime] raises [ValueError]. *)
Theorem strptime_stamp_line_valid st :
  stamp_digits_ok st ->
  (stamp_ok st -> strptime_kitti (drop_last4 (stamp_line st)) = Ok (stamp_truncated st)) /\
  (~ stamp_ok st -> strptime_kitti (drop_last4 (stamp_line st)) = Err ValueError).
Proof.
  destruct st as [y mo d h mi s ns].
  unfold stamp_digits_ok, stamp_ok, stamp_line, stamp_truncated;
    cbn [st_year st_month st_day st_hour st_minute st_second st_nanos].
  intros (Hy & Hmo & Hd & Hh & Hmi & Hs & Hns).
  assert (E : kitti_line y mo d h mi s ns =
    (fmt 4 y ++ ["-"%char] ++ fmt 2 mo ++ ["-"%char] ++ fmt 2 d ++ [" "%char] ++
     fmt 2 h ++ [":"%char] ++ fmt 2 mi ++ [":"%char] ++ fmt 2 s ++ ["."%char] ++
     fmt 6 (ns / 1000)) ++ (fmt 3 ns ++ ["010"%char])).
  { unfold kitti_line. rewrite (fmt_split 3 6). rewrite <- !app_assoc. reflexivity. }
  assert (Hu : 0 <= ns / 1000 < 10 ^ Z.of_nat 6)
    by (split; [apply Z.div_pos; lia | apply Z.div_lt_upper_bound; cbn in *; lia]).
  rewrite E, drop_last4_app by (rewrite length_app, fmt_length; reflexivity).
  rewrite (strptime_fields y mo d h mi s 6 (ns / 1000)) by (assumption || lia). cbv zeta.
  replace (ns / 1000 * 10 ^ (6 - Z.of_nat 6)) with (ns / 1000) by (cbn; lia).
  unfold valid_datetime. cbn [year month day hour minute second].
  split.
  - intros (Hy' & Hmo' & Hd' & Hh' & Hmi' & Hs' & _).
    replace ((1 <=? y) && (y <=? 9999) && (1 <=? mo) && (mo <=? 12) && (1 <=? d) &&
             (d <=? days_in_month y mo) && (h <=? 23) && (mi <=? 59) && (s <=? 59)) with true.
    + reflexivity.
    + symmetry. repeat rewrite andb_true_iff. repeat split; apply Z.leb_le; lia.
  - intros Hnot.
    destruct ((1 <=? y) && (y <=? 9999) && (1 <=? mo) && (mo <=? 12) && (1 <=? d) &&
              (d <=? days_in_month y mo) && (h <=? 23) && (mi <=? 59) && (s <=? 59)) eqn:Hv;
      [|reflexivity].
    exfalso. apply Hnot. repeat rewrite andb_true_iff in Hv.
    destruct Hv as [[[[[[[[H1 H2] H3] H4] H5] H6] H7] H8] H9].
    apply Z.leb_le in H1, H2, H3, H4, H5, H6, H7, H8, H9. lia.
Qed.

(** The last line of a timestamp file that does not end in a newline loses
    one more digit to [line[:-4]]: five sub-second digits remain, and
    [strptime] reads them as a time in steps of 10 microseconds. *)
Theorem strptime_last_line_no_newline st :
  stamp_ok st ->
  strptime_kitti (drop_last4 (stamp_last_line st)) =
  Ok (mkdt (st_year st) (st_month st) (st_day st) (st_hour st) (st_minute st)
           (st_second st) (st_nanos st / 10000 * 10)).
Proof.
  destruct st as [y mo d h mi s ns].
  unfold stamp_ok, stamp_last_line, stamp_line;
    cbn [st_year st_month st_day st_hour st_minute st_second st_nanos].
  intros (Hy & Hmo & Hd & Hh & Hmi & Hs & Hns).
  assert (Hdm : days_in_month y mo <= 31)
    by (unfold days_in_month; destruct (mo =? 2);
        [destruct (is_leap y) | destruct ((mo =? 4) || (mo =? 6) || (mo =? 9) || (mo =? 11))];
        lia).
  assert (E : kitti_line y mo d h mi s ns =
    ((fmt 4 y ++ ["-"%char] ++ fmt 2 mo ++ ["-"%char] ++ fmt 2 d ++ [" "%char] ++
      fmt 2 h ++ [":"%char] ++ fmt 2 mi ++ [":"%char] ++ fmt 2 s ++ ["."%char] ++
      fmt 5 (ns / 10 ^ Z.of_nat 4)) ++ fmt 4 ns) ++ ["010"%char]).
  { unfold kitti_line. rewrite (fmt_split 4 5). rewrite <- !app_assoc. reflexivity. }
  assert (Hu : 0 <= ns / 10 ^ Z.of_nat 4 < 10 ^ Z.of_nat 5)
    by (split; [apply Z.div_pos; cbn; lia | apply Z.div_lt_upper_bound; cbn in *; lia]).
  rewrite E, removelast_last, drop_last4_app by (apply fmt_length).
  rewrite (strptime_fields y mo d h mi s 5 (ns / 10 ^ Z.of_nat 4)) by (first [exact Hu | cbn; lia]).
  cbv zeta.
  replace (valid_datetime _) with true.
  - reflexivity.
  - symmetry. unfold valid_datetime. cbn [year month day hour minute second].
    repeat rewrite andb_true_iff. repeat split; apply Z.leb_le; lia.
Qed.

(** Session construction raises [ValueError] when a line of either
    timestamp file is not accepted by [strptime]. *)
Theorem kitti_raw_data_bad_line `{FileSystem} base dt dr cfg li lv :
  read_lines (path_join (path_join (path_join base dt) dr) "oxts/timestamps.txt") = Ok li ->
  read_lines (path_join (path_join (path_join base dt) dr) "velodyne_points/timestamps.txt")
    = Ok lv ->
  (exists l e, In l (li ++ lv) /\ strptime_kitti (drop_last4 l) = Err e) ->
  kitti_raw_data base dt dr cfg = Err ValueError.
Proof.
  intros Hi Hv (l & e & Hin & Hl). unfold kitti_raw_data, load_timestamp_file.
  rewrite Hi. cbn [rbind].
  apply in_app_or in Hin as [Hin|Hin].
  - unfold parse_timestamp_lines.
    rewrite (rmapM_err_uniform (fun line => strptime_kitti (drop_last4 line)) li ValueError).
    + reflexivity.
    + intros x e' Hx. exact (strptime_err _ _ Hx).
    + exists l, e. split; assumption.
  - destruct (parse_timestamp_lines li) as [ts|e'] eqn:Ep; cbn [rbind].
    + rewrite Hv. cbn [rbind]. unfold parse_timestamp_lines.
      rewrite (rmapM_err_uniform (fun line => strptime_kitti (drop_last4 line)) lv ValueError).
      * reflexivity.
      * intros x e'' Hx. exact (strptime_err _ _ Hx).
      * exists l, e. split; assumption.
    + unfold parse_timestamp_lines in Ep. apply rmapM_err_in in Ep as (x & _ & Hx).
      rewrite (strptime_err _ _ Hx). reflexivity.
Qed.

(** A successful [get_data(start_index, length)] returns [length] range
    images, the [k]-th being the image of scan [start_index + k]. *)
Theorem get_data_images_window `{Sensors} s start len out d :
  get_data s start len = (out, Ok d) ->
  List.length (images d) = Z.to_nat len /\
  forall k, (k < Z.to_nat len)%nat ->
    exists img, nth_error (images d) k = Some img /\
                get_velo_image s (start + Z.of_nat k) = Ok img.
Proof. apply get_data_images. Qed.

(** A successful [get_data] prints nothing, and returns at least one and at
    most [len(timestamps_imu)] inertial readings. *)
Theorem get_data_success_silent_bounded `{Sensors} s start len out d :
  get_data s start len = (out, Ok d) ->
  out = [] /\ (1 <= imu_len (imu d) <= List.length (timestamps_imu s))%nat.
Proof.
  intros Hd. split; [exact (get_data_silent _ _ _ _ _ Hd) | exact (get_data_imu_bounds _ _ _ _ _ Hd)].
Qed.

(** With [N] scan timestamps, [get_data] raises [IndexError] (printing
    nothing) when [start_index] or [start_index + length - 1] lies outside
    [[-N, N)]. *)
Theorem get_data_index_out_of_range `{Sensors} s start len :
  ~ (- py_len (timestamps_velo s) <= start < py_len (timestamps_velo s)) \/
  ~ (- py_len (timestamps_velo s) <= start + len - 1 < py_len (timestamps_velo s)) ->
  get_data s start len = ([], Err IndexError).
Proof.
  intros Hout.
  assert (Hw : window_interval s start len = Err IndexError).
  { unfold window_interval. destruct Hout as [Hout|Hout].
    - rewrite (py_index_out _ _ Hout). reflexivity.
    - destruct (py_index (timestamps_velo s) start) as [t|e] eqn:E; cbn [rbind].
      + rewrite (py_index_out _ _ Hout). reflexivity.
      + rewrite (py_index_err _ _ _ E). reflexivity. }
  unfold get_data. rewrite Hw. reflexivity.
Qed.

(** [get_data(0, 0)] does not describe an empty window: the stop index [-1]
    wraps to the last scan, so the interval runs from the first to the last
    scan timestamp, while no image is loaded. *)
Theorem get_data_zero_length_wraps `{Sensors} s t r :
  timestamps_velo s = t :: r ->
  window_interval s 0 0 = Ok (t, last (t :: r) t) /\
  (forall out d, get_data s 0 0 = (out, Ok d) -> images d = []).
Proof.
  intros Hts. split.
  - unfold window_interval. rewrite Hts.
    assert (H0 : py_index (t :: r) 0 = Ok t) by exact (py_index_nat (t :: r) 0 t eq_refl).
    rewrite H0. cbn [rbind]. change (0 + 0 - 1) with (-1).
    rewrite (py_index_last (t :: r) t) by discriminate. reflexivity.
  - intros out d Hd. apply get_data_images in Hd as [Hl _].
    apply length_zero_iff_nil. exact Hl.
Qed.

(** A window of one scan never succeeds: its interval [[t, t)] holds no IMU
    timestamp, so once the image is loaded [get_data] prints the warning and
    raises [UnboundLocalError]. *)
Theorem get_data_single_scan_window_raises `{Sensors} s start t0 t1 imgs :
  window_interval s start 1 = Ok (t0, t1) ->
  rmapM (get_velo_image s) (zrange start (start + 1)) = Ok imgs ->
  t1 = t0 /\ get_data s start 1 = ([WarnNoImu start t0 t0], Err UnboundLocalError).
Proof.
  intros Hw Hi.
  assert (E : t1 = t0).
  { unfold window_interval in Hw. rewrite Z.add_simpl_r in Hw.
    destruct (py_index (timestamps_velo s) start) as [t|e]; cbn [rbind] in Hw;
      [|discriminate Hw].
    injection Hw as <- <-. reflexivity. }
  subst t1. split; [reflexivity|].
  unfold get_data. rewrite Hw. cbn [mbind mlift]. rewrite Hi. cbn [mbind mlift].
  rewrite imu_select_empty_interval. reflexivity.
Qed.

(** [get_data] reads the OXTS file at each selected IMU index: it never
    succeeds when a selected index has no OXTS file (more IMU timestamps than
    OXTS files). *)
Theorem get_data_needs_oxts_file `{Sensors} s start len t0 t1 i :
  window_interval s start len = Ok (t0, t1) ->
  In i (imu_select (timestamps_imu s) t0 t1) ->
  (List.length (oxts_files s) <= i)%nat ->
  forall out d, get_data s start len <> (out, Ok d).
Proof.
  intros Hw Hin Hle out d Hd.
  destruct (get_data_ok _ _ _ _ _ Hd) as (t0' & t1' & imgs & otxs & firsts & Hw' & _ & _ & Ho & _ & _).
  rewrite Hw in Hw'. injection Hw' as <- <-.
  apply rmapM_Forall2 in Ho.
  apply In_nth_error in Hin as (k & Hk).
  assert (Hk' : nth_error (map Z.of_nat (imu_select (timestamps_imu s) t0 t1)) k
                = Some (Z.of_nat i)) by (rewrite nth_error_map, Hk; reflexivity).
  destruct (forall2_nth _ _ _ _ _ Ho Hk') as (o & _ & Hl).
  unfold load_oxt_lazy in Hl.
  destruct (py_index (oxts_files s) (Z.of_nat i)) as [f|e] eqn:Hf; cbn [rbind] in Hl;
    [|discriminate Hl].
  apply py_index_bound in Hf. lia.
Qed.

(** With [N] scans, [get_velo] and [get_velo_image] raise [IndexError] for
    an index outside [[-N, N)]. *)
Theorem get_velo_out_of_range `{Sensors} s idx :
  ~ (- py_len (velo_files s) <= idx < py_len (velo_files s)) ->
  get_velo s idx = Err IndexError /\ get_velo_image s idx = Err IndexError.
Proof.
  intros Hout. unfold get_velo, get_velo_image.
  rewrite (py_index_out _ _ Hout). split; reflexivity.
Qed.

(** When [Kitti.__getitem__] returns data, it printed exactly its timing
    line, and the data holds [seq_size] images and at least one inertial
    reading. *)
Theorem getitem_success_shape `{Sensors} tb ds index out d :
  getitem tb ds index = (out, Ok (Some d)) ->
  out = [DeltaTime] /\ List.length (images d) = Z.to_nat (seq_size ds) /\
  (1 <= imu_len (imu d))%nat.
Proof.
  intros H0. destruct (getitem_some _ _ _ _ _ H0) as (s & idx & o & Hg & ->).
  rewrite (get_data_silent _ _ _ _ _ Hg).
  split; [reflexivity|]. split.
  - exact (proj1 (get_data_images _ _ _ _ _ Hg)).
  - exact (proj1 (get_data_imu_bounds _ _ _ _ _ Hg)).
Qed.

(** * Witnesses and counterexamples *)

Lemma kitti_bin_table_witness :
  exists ds, build_kitti "train" 3 [toy_session 5 [] []; toy_session 4 [] []] = Ok ds /\
    bins ds = [(0, 2); (3, 4)] /\ length ds = 5 /\
    length ds = windows_total 3 [toy_session 5 [] []; toy_session 4 [] []].
Proof.
  eexists. split; [reflexivity|]. split; [reflexivity|]. split; [reflexivity|].
  destruct (kitti_bin_table "train" 3 [toy_session 5 [] []; toy_session 4 [] []] _ eq_refl)
    as (_ & _ & _ & H). exact H.
Defined.

Lemma getitem_resolves_witness :
  exists ds, build_kitti "train" 3 [toy_session 5 [] []; toy_session 4 [] []] = Ok ds /\
    0 <= 3 < length ds /\
    exists k d off, nth_error (dataset ds) k = Some d /\
      scan_bins (bins ds) 3 0 = (off, Z.of_nat k) /\ 0 <= off <= session_len d - seq_size ds /\
      getitem false ds 3 = ([], Err NameError) /\
      snd (getitem true ds 3) =
        match snd (get_data d off (seq_size ds)) with
        | Ok data => Ok (Some data)
        | Err e => Err e
        end.
Proof.
  eexists. split; [reflexivity|]. split; [cbn; lia|].
  destruct (getitem_resolves "train" 3 [toy_session 5 [] []; toy_session 4 [] []] _ 3
              eq_refl ltac:(cbn; lia)) as (k & d & off & H1 & H2 & H3 & _ & H5 & H6 & _).
  exists k, d, off.
  split; [exact H1|]. split; [exact H2|]. split; [exact H3|]. split; [exact H5 | exact H6].
Defined.

Lemma getitem_out_of_range_witness :
  exists ds, build_kitti "train" 3 [toy_session 5 [] []] = Ok ds /\
    Forall (long_enough 3) [toy_session 5 [] []] /\ (3 < 0 \/ length ds <= 3) /\
    getitem false ds 3 = ([ErrNoBins], Ok None).
Proof.
  eexists. split; [reflexivity|].
  assert (HL : Forall (long_enough 3) [toy_session 5 [] []])
    by (repeat constructor; unfold long_enough; cbn; lia).
  split; [exact HL|]. split; [right; cbn; lia|].
  apply (getitem_out_of_range "train" 3 [toy_session 5 [] []] _ 3 false);
    [reflexivity | exact HL | right; cbn; lia].
Defined.

(** The claim's example: index 3 of one five-scan session with window 3 is
    answered with [None] and a printed line, with or without [time] bound;
    nothing is raised. *)
Lemma getitem_index3_returns_none :
  exists ds, build_kitti "train" 3 [toy_session 5 [] []] = Ok ds /\
    length ds = 3 /\ getitem false ds 3 = ([ErrNoBins], Ok None) /\
    getitem true ds 3 = ([ErrNoBins], Ok None).
Proof. eexists. split; [reflexivity|]. repeat split; reflexivity. Qed.

Lemma kitti_init_no_length_check_witness :
  exists ds, kitti_init [("cfg"%string, toy_cfg)] toy_cfg "train" = Ok ds /\
    bins ds = [(0, 2); (3, 2)].
Proof.
  assert (Hl : load_sessions (root_path (datasets_kitti toy_cfg)) (datasets_kitti toy_cfg)
                 [("2011_09_26"%string, ["0001"%string; "0002"%string])]
               = Ok toy_train_sessions) by (vm_compute; reflexivity).
  assert (Hne : toy_train_sessions <> []) by (vm_compute; discriminate).
  destruct (kitti_init_no_length_check [("cfg"%string, toy_cfg)] toy_cfg "train" toy_cfg
              [("2011_09_26"%string, ["0001"%string; "0002"%string])] toy_train_sessions
              eq_refl eq_refl Hl Hne) as (ds & Hds & _ & Hb & _).
  exists ds. split; [exact Hds|]. rewrite Hb. reflexivity.
Defined.

(** Construction with a two-scan session and window 3 succeeds. *)
Lemma kitti_init_accepts_short_session :
  exists ds, kitti_init [("cfg"%string, toy_cfg)] toy_cfg "train" = Ok ds /\
    seq_size ds = 3 /\ map session_len (dataset ds) = [5; 2] /\ bins ds = [(0, 2); (3, 2)].
Proof. eexists. split; [reflexivity|]. repeat split; reflexivity. Qed.

Lemma kitti_init_reads_global_cfg_witness :
  kitti_init [] toy_cfg "train" = Err NameError.
Proof. apply (proj2 (kitti_init_reads_global_cfg [] "train" eq_refl)). Defined.

Lemma get_data_imu_selection_witness :
  window_interval toy_window_session 0 2 = Ok (us 0, us 10) /\
  imu_select (timestamps_imu toy_window_session) (us 0) (us 10) = [0; 1; 2]%nat /\
  (forall i, In i (imu_select (timestamps_imu toy_window_session) (us 0) (us 10)) <->
     exists t, nth_error (timestamps_imu toy_window_session) i = Some t /\
               dt_ge t (us 0) = true /\ dt_lt t (us 10) = true).
Proof.
  split; [reflexivity|]. split; [reflexivity|].
  destruct (get_data_imu_selection toy_window_session 0 2 ltac:(lia) ltac:(lia) ltac:(cbn; lia))
    as (t0 & t1 & Hw & _ & _ & Hiff & _).
  assert (E : window_interval toy_window_session 0 2 = Ok (us 0, us 10)) by reflexivity.
  rewrite E in Hw. injection Hw as <- <-. exact Hiff.
Defined.

Lemma get_data_empty_window_raises_witness :
  get_data toy_gap_session 0 2 = ([WarnNoImu 0 (us 0) (us 10)], Err UnboundLocalError).
Proof. eapply get_data_empty_window_raises; reflexivity. Defined.

Lemma get_data_lengths_agree_witness :
  exists out d, get_data toy_window_session 0 2 = (out, Ok d) /\
    imu_len (imu d) = List.length (ground_truth d) /\ imu_len (imu d) = 3%nat.
Proof.
  eexists _, _. split; [reflexivity|]. split; [|reflexivity].
  eapply (get_data_lengths_agree toy_window_session 0 2). reflexivity.
Defined.

Lemma get_velo_negative_index_witness :
  - py_len (velo_files (toy_session 5 [] [])) <= -1 < 0 /\
  get_velo_image (toy_session 5 [] []) (-1) = get_velo_image (toy_session 5 [] []) 4.
Proof.
  split; [cbn; lia|].
  destruct (get_velo_negative_index (toy_session 5 [] []) (-1) ltac:(cbn; lia))
    as (f & _ & _ & H3 & _ & _). exact H3.
Defined.

Lemma kitti_raw_data_timestamps_witness :
  exists s, kitti_raw_data "kitti" "2011_09_26" "0001" (datasets_kitti toy_cfg) = Ok s /\
    timestamps_velo s = [mkdt 2011 9 26 13 2 25 964389].
Proof.
  assert (Hok : Forall stamp_ok [toy_stamp])
    by (constructor; [unfold stamp_ok; cbn; lia | constructor]).
  destruct (@kitti_raw_data_timestamps toy_fs "kitti" "2011_09_26" "0001" (datasets_kitti toy_cfg)
              [toy_stamp] [toy_stamp] ltac:(vm_compute; reflexivity)
              ltac:(vm_compute; reflexivity) Hok Hok) as (s & Hs & _ & Hv).
  exists s. split; [exact Hs|]. rewrite Hv. reflexivity.
Defined.

Lemma kitti_init_empty_split_raises_witness :
  kitti_init [("cfg"%string, toy_empty_cfg)] toy_empty_cfg "test" = Err IndexError.
Proof.
  apply (kitti_init_empty_split_raises [("cfg"%string, toy_empty_cfg)] toy_empty_cfg "test"
           toy_empty_cfg [("2011_09_26"%string, [])]); reflexivity.
Defined.

Lemma kitti_init_session_order_witness :
  exists ds, kitti_init [("cfg"%string, toy_cfg)] toy_cfg "train" = Ok ds /\
    map (fun s => (date s, drive s)) (dataset ds) =
      [("2011_09_26", "0001"); ("2011_09_26", "0002")]%string.
Proof.
  destruct (kitti_init [("cfg"%string, toy_cfg)] toy_cfg "train") as [ds|e] eqn:Hk;
    [|vm_compute in Hk; discriminate Hk].
  exists ds. split; [reflexivity|].
  exact (proj1 (kitti_init_session_order [("cfg"%string, toy_cfg)] toy_cfg "train" toy_cfg
                  [("2011_09_26"%string, ["0001"%string; "0002"%string])] ds
                  eq_refl eq_refl Hk)).
Defined.

Lemma strptime_stamp_line_valid_witness :
  stamp_digits_ok toy_bad_stamp /\ ~ stamp_ok toy_bad_stamp /\
  strptime_kitti (drop_last4 (stamp_line toy_bad_stamp)) = Err ValueError.
Proof.
  assert (Hd : stamp_digits_ok toy_bad_stamp) by (unfold stamp_digits_ok; cbn; lia).
  assert (Hn : ~ stamp_ok toy_bad_stamp)
    by (unfold stamp_ok; cbn; intros (_ & _ & Hday & _); destruct Hday as [_ Hday]; apply Hday; reflexivity).
  split; [exact Hd|]. split; [exact Hn|].
  exact (proj2 (strptime_stamp_line_valid toy_bad_stamp Hd) Hn).
Defined.

Lemma strptime_last_line_no_newline_witness :
  strptime_kitti (drop_last4 (stamp_last_line toy_stamp)) = Ok (mkdt 2011 9 26 13 2 25 964380).
Proof.
  exact (strptime_last_line_no_newline toy_stamp ltac:(unfold stamp_ok; cbn; lia)).
Defined.

Lemma kitti_raw_data_bad_line_witness :
  @kitti_raw_data toy_fs_bad "kitti" "2011_09_26" "0001" (datasets_kitti toy_cfg)
  = Err ValueError.
Proof.
  apply (@kitti_raw_data_bad_line toy_fs_bad "kitti" "2011_09_26" "0001" (datasets_kitti toy_cfg)
           [stamp_line toy_bad_stamp] [stamp_line toy_bad_stamp]);
    [reflexivity | reflexivity|].
  exists (stamp_line toy_bad_stamp), ValueError. split; [left; reflexivity | vm_compute; reflexivity].
Defined.

Lemma get_data_images_window_witness :
  exists out d, get_data toy_window_session 0 2 = (out, Ok d) /\
    List.length (images d) = 2%nat.
Proof.
  eexists _, _. split; [reflexivity|].
  eapply proj1. eapply (get_data_images_window toy_window_session 0 2). reflexivity.
Defined.

Lemma get_data_success_silent_bounded_witness :
  exists out d, get_data toy_window_session 0 2 = (out, Ok d) /\ out = [].
Proof.
  eexists _, _. split; [reflexivity|].
  eapply proj1. eapply (get_data_success_silent_bounded toy_window_session 0 2). reflexivity.
Defined.

Lemma get_data_index_out_of_range_witness :
  get_data toy_window_session 4 1 = ([], Err IndexError).
Proof. apply get_data_index_out_of_range. left. cbn. lia. Defined.

Lemma get_data_zero_length_wraps_witness :
  window_interval toy_window_session 0 0 = Ok (us 0, us 30).
Proof.
  exact (proj1 (get_data_zero_length_wraps toy_window_session (us 0) [us 10; us 20; us 30] eq_refl)).
Defined.

Lemma get_data_single_scan_window_raises_witness :
  get_data toy_window_session 1 1 = ([WarnNoImu 1 (us 10) (us 10)], Err UnboundLocalError).
Proof.
  exact (proj2 (get_data_single_scan_window_raises toy_window_session 1 (us 10) (us 10)
                  ["scan.txt"%string] eq_refl eq_refl)).
Defined.

Lemma get_data_needs_oxts_file_witness :
  match snd (get_data toy_short_oxts_session 0 2) with Ok _ => False | Err _ => True end.
Proof.
  destruct (get_data toy_short_oxts_session 0 2) as [out [d|e]] eqn:E; [|exact I].
  apply (get_data_needs_oxts_file toy_short_oxts_session 0 2 (us 0) (us 10) 2%nat
           ltac:(reflexivity) ltac:(vm_compute; tauto) ltac:(cbn; lia) out d E).
Defined.

Lemma get_velo_out_of_range_witness :
  get_velo (toy_session 5 [] []) 5 = Err IndexError /\
  get_velo_image (toy_session 5 [] []) (-6) = Err IndexError.
Proof.
  split.
  - apply (proj1 (get_velo_out_of_range (toy_session 5 [] []) 5 ltac:(cbn; lia))).
  - apply (proj2 (get_velo_out_of_range (toy_session 5 [] []) (-6) ltac:(cbn; lia))).
Defined.

Lemma getitem_success_shape_witness :
  exists ds out d, build_kitti "train" 2 [toy_window_session] = Ok ds /\
    getitem true ds 0 = (out, Ok (Some d)) /\
    (out = [DeltaTime] /\ List.length (images d) = 2%nat /\ (1 <= imu_len (imu d))%nat).
Proof.
  eexists _, _, _. split; [reflexivity|].
  match goal with |- getitem true ?ds 0 = _ /\ _ =>
    split; [reflexivity|]; eapply (getitem_success_shape true ds 0); reflexivity
  end.
Defined.
